(** * rm_all_gists.py: the GistDeleter command-line tool

    A shallow embedding of [src/rm_all_gists.py] and the properties of its
    fetch / display / confirm / delete workflow.

    - Python [str] values are [string]s.  The message literals of the program
      are carried as their UTF-8 bytes and are never inspected.  Where the
      program inspects text (the answer typed at the prompt, the [created_at]
      field), one [ascii] stands for one code point in U+0000..U+00FF and the
      string methods are the CPython ones restricted to that range.
    - The outside world (environment variables, the HTTP server, the
      terminal) is an [Env] record of oracles; the program's observable
      behaviour is the chronological list of [Event]s it emits together with
      the way it ends ([Result]).
    - [while True] in [get_all_gists] is modelled with fuel; the theorems show
      that a finite amount of fuel always suffices when the server eventually
      sends an empty page or a failure. *)

From Stdlib Require Import String Ascii List Arith ZArith QArith Lia Bool.
From Stdlib Require Import DecimalString.
Import ListNotations.
Close Scope Q_scope.
Local Open Scope string_scope.
Local Open Scope list_scope.
Local Open Scope nat_scope.

(** String concatenation, kept apart from the [++] of lists. *)
Infix "+++" := String.append (right associativity, at level 60).

(** ** Python values *)

(** [str(n)] for a Python [int]. *)
Definition str_of_Z (z : Z) : string := NilZero.string_of_int (Z.to_int z).
Definition str_of_nat (n : nat) : string := NilZero.string_of_uint (Nat.to_uint n).

(** [sep.join(parts)] *)
Fixpoint join (sep : string) (parts : list string) : string :=
  match parts with
  | [] => ""
  | [p] => p
  | p :: rest => p +++ sep +++ join sep rest
  end.

(** Truthiness of a [str]: the empty string is falsy. *)
Definition str_truthy (s : string) : bool :=
  match s with
  | EmptyString => false
  | String _ _ => true
  end.

(** ** Constants of the module *)

Definition GITHUB_API_BASE_URL : string := "https://api.github.com".
Definition GITHUB_API_VERSION : string := "application/vnd.github.v3+json".
Definition ITEMS_PER_PAGE : nat := 100.
Definition API_SLEEP_TIME : Q := (1 # 2)%Q.
Definition ENV_TOKEN_NAME : string := "GITHUB_TOKEN".

Definition NL : string := String (ascii_of_nat 10) EmptyString.

Definition MSG_TOKEN_NOT_FOUND : string :=
  "[red]錯誤: 未設置 GITHUB_TOKEN 環境變數[/red]".
Definition MSG_TOKEN_SETUP_GUIDE : string :=
  "請設置您的 GitHub Personal Access Token:" +++ NL +++
  "Linux/macOS: export GITHUB_TOKEN='your_token'" +++ NL +++
  "Windows PowerShell: $env:GITHUB_TOKEN='your_token'" +++ NL +++
  "Windows CMD: set GITHUB_TOKEN=your_token".

(** The other messages are literals in the source; they are named here. *)
Definition MSG_NO_DESCRIPTION : string := "無描述".
Definition MSG_START : string := "[bold blue]開始獲取您的 Gists...[/bold blue]".
Definition MSG_NONE_FOUND : string := "[yellow]未找到任何 Gists[/yellow]".
Definition MSG_IRREVERSIBLE : string := "[red]此操作不可撤銷！[/red]".
Definition MSG_PROMPT : string := NL +++ "輸入 'yes' 確認刪除: ".
Definition MSG_DONE : string := "[bold green]操作完成！[/bold green]".
Definition MSG_FETCHING : string := "正在獲取 Gists...".

(** ** [str] methods used by the program *)

Module PyStr.

(** [str.isspace] on one character of U+0000..U+00FF: TAB..CR, FS..US,
    SPACE, NEL and NBSP. *)
Definition isspace (c : ascii) : bool :=
  let n := nat_of_ascii c in
  ((9 <=? n) && (n <=? 13)) || ((28 <=? n) && (n <=? 32))
  || (n =? 133) || (n =? 160).

(** [str.lower] on one character of U+0000..U+00FF: A..Z and the Latin-1
    capitals U+00C0..U+00DE (without the multiplication sign U+00D7). *)
Definition lower_char (c : ascii) : ascii :=
  let n := nat_of_ascii c in
  if ((65 <=? n) && (n <=? 90))
     || ((192 <=? n) && (n <=? 222) && negb (n =? 215))
  then ascii_of_nat (n + 32) else c.

Fixpoint lower (s : string) : string :=
  match s with
  | EmptyString => EmptyString
  | String c s' => String (lower_char c) (lower s')
  end.

Fixpoint lstrip (s : string) : string :=
  match s with
  | EmptyString => EmptyString
  | String c s' => if isspace c then lstrip s' else s
  end.

Fixpoint rstrip (s : string) : string :=
  match s with
  | EmptyString => EmptyString
  | String c s' =>
      match rstrip s' with
      | EmptyString => if isspace c then EmptyString else String c EmptyString
      | r => String c r
      end
  end.

(** [str.strip()] with no argument: the slice between the first and the
    last character that is not white space. *)
Definition strip (s : string) : string := rstrip (lstrip s).

(** Every character of [s] is white space. *)
Fixpoint all_space (s : string) : bool :=
  match s with
  | EmptyString => true
  | String c s' => isspace c && all_space s'
  end.

End PyStr.

(** ** [datetime.strptime(text, '%Y-%m-%dT%H:%M:%SZ')] and [str(datetime)]

    CPython turns the format into a regular expression, one named group per
    directive, matches it case-insensitively at the start of the text,
    rejects text left over after the match, converts the groups with [int]
    and builds a [datetime], whose constructor checks the calendar. *)

Module Strptime.

Record datetime := mkdatetime {
  year : Z; month : Z; day : Z;
  hour : Z; minute : Z; second : Z
}.

(** A character class [lo-hi] (a single character when [lo = hi]). *)
Definition cclass : Type := (ascii * ascii)%type.

Definition in_class (k : cclass) (c : ascii) : bool :=
  (nat_of_ascii (fst k) <=? nat_of_ascii c)
  && (nat_of_ascii c <=? nat_of_ascii (snd k)).

Definition D09 : cclass := ("0"%char, "9"%char).
Definition rng (a b : ascii) : cclass := (a, b).
Definition one (a : ascii) : cclass := (a, a).

(** One piece of the compiled pattern: a literal of the format (matched
    without regard to case) or a group of alternatives tried in order. *)
Inductive piece :=
| Lit (c : ascii)
| Group (alts : list (list cclass)).

Definition re_Y : piece := Group [[D09; D09; D09; D09]].
Definition re_m : piece :=
  Group [[one "1"; rng "0" "2"]; [one "0"; rng "1" "9"]; [rng "1" "9"]]%char.
Definition re_d : piece :=
  Group [[one "3"; rng "0" "1"]; [rng "1" "2"; D09]; [one "0"; rng "1" "9"];
         [rng "1" "9"]; [one " "; rng "1" "9"]]%char.
Definition re_H : piece :=
  Group [[one "2"; rng "0" "3"]; [rng "0" "1"; D09]; [D09]]%char.
Definition re_M : piece := Group [[rng "0" "5"; D09]; [D09]]%char.
Definition re_S : piece :=
  Group [[one "6"; rng "0" "1"]; [rng "0" "5"; D09]; [D09]]%char.

(** The pattern of ['%Y-%m-%dT%H:%M:%SZ']. *)
Definition format_regex : list piece :=
  [re_Y; Lit "-"; re_m; Lit "-"; re_d; Lit "T";
   re_H; Lit ":"; re_M; Lit ":"; re_S; Lit "Z"]%char.

Definition eq_nocase (a b : ascii) : bool :=
  Ascii.eqb (PyStr.lower_char a) (PyStr.lower_char b).

(** Match the classes of one alternative against a prefix of [s]: the
    matched text and the rest. *)
Fixpoint match_classes (ks : list cclass) (s : string)
  : option (string * string) :=
  match ks with
  | [] => Some (EmptyString, s)
  | k :: ks' =>
      match s with
      | EmptyString => None
      | String c s' =>
          if in_class k c then
            match match_classes ks' s' with
            | Some (m, rest) => Some (String c m, rest)
            | None => None
            end
          else None
      end
  end.

(** Backtracking match of the pieces at the start of [s]: the texts of the
    groups (in order) and what is left after the match. *)
Fixpoint re_match (ps : list piece) (s : string)
  : option (list string * string) :=
  match ps with
  | [] => Some ([], s)
  | Lit c :: ps' =>
      match s with
      | EmptyString => None
      | String a s' => if eq_nocase a c then re_match ps' s' else None
      end
  | Group alts :: ps' =>
      (fix try_alts (alts : list (list cclass)) :=
         match alts with
         | [] => None
         | alt :: more =>
             match match_classes alt s with
             | Some (m, rest) =>
                 match re_match ps' rest with
                 | Some (ms, remaining) => Some (m :: ms, remaining)
                 | None => try_alts more
                 end
             | None => try_alts more
             end
         end) alts
  end.

Open Scope Z_scope.

(** [int(text)] for the text of a group: digits, after an optional
    leading blank (the last alternative of [%d]). *)
Definition digit_val (c : ascii) : Z := Z.of_nat (nat_of_ascii c) - 48.

Fixpoint int_digits (acc : Z) (s : string) : Z :=
  match s with
  | EmptyString => acc
  | String c s' => int_digits (10 * acc + digit_val c) s'
  end.

Definition int_of (s : string) : Z := int_digits 0 (PyStr.strip s).

Definition is_leap (y : Z) : bool :=
  ((y mod 4 =? 0) && negb (y mod 100 =? 0)) || (y mod 400 =? 0).

Definition days_in_month (y m : Z) : Z :=
  match m with
  | 2 => if is_leap y then 29 else 28
  | 4 | 6 | 9 | 11 => 30
  | _ => 31
  end.

(** The checks of the [date] and [datetime] constructors. *)
Definition valid (d : datetime) : bool :=
  (1 <=? year d) && (year d <=? 9999)
  && (1 <=? month d) && (month d <=? 12)
  && (1 <=? day d) && (day d <=? days_in_month (year d) (month d))
  && (0 <=? hour d) && (hour d <=? 23)
  && (0 <=? minute d) && (minute d <=? 59)
  && (0 <=? second d) && (second d <=? 59).

(** [None] stands for [ValueError]: the text does not match the format,
    text remains after the match, or the fields are not a date. *)
Definition strptime (s : string) : option datetime :=
  match re_match format_regex s with
  | Some ([yy; mm; dd; hh; mi; ss], EmptyString) =>
      let dt := mkdatetime (int_of yy) (int_of mm) (int_of dd)
                           (int_of hh) (int_of mi) (int_of ss) in
      if valid dt then Some dt else None
  | _ => None
  end.

(** [%0wd] for a field that is not negative. *)
Definition pad (w : nat) (n : Z) : string :=
  let s := str_of_Z n in
  (fix zeros (k : nat) : string :=
     match k with
     | O => s
     | S k' => String "0"%char (zeros k')
     end) (w - String.length s)%nat.

(** [str(dt)]: ISO format with a blank separator, no fraction, no zone. *)
Definition str_of_datetime (d : datetime) : string :=
  pad 4 (year d) +++ "-" +++ pad 2 (month d) +++ "-" +++ pad 2 (day d) +++ " " +++
  pad 2 (hour d) +++ ":" +++ pad 2 (minute d) +++ ":" +++ pad 2 (second d).

(** *** The format in words

    A text matches ['%Y-%m-%dT%H:%M:%SZ'] when it is a year of four digits,
    [-], a month, [-], a day, [T], an hour, [:], a minute, [:], a second and
    [Z] ([T] and [Z] in either case), where month, day, hour, minute and
    second are numerals of one or two digits in their ranges (the day may
    also be a blank and one digit) and the fields make a date of the
    calendar. *)

Definition is_digit (c : ascii) : bool := in_class D09 c.

Fixpoint all_digits (s : string) : bool :=
  match s with
  | EmptyString => true
  | String c s' => is_digit c && all_digits s'
  end.

Definition digit_chars : list ascii :=
  ["0"; "1"; "2"; "3"; "4"; "5"; "6"; "7"; "8"; "9"]%char.

(** All numerals of one or two digits. *)
Definition all_numerals : list string :=
  map (fun a => String a "") digit_chars
  ++ flat_map (fun a => map (fun b => String a (String b "")) digit_chars)
       digit_chars.

(** A numeral of one or two digits whose value is between [lo] and [hi]. *)
Definition numeral (lo hi : Z) (s : string) : Prop :=
  (String.length s = 1 \/ String.length s = 2)%nat
  /\ all_digits s = true
  /\ lo <= int_of s <= hi.

Definition day_numeral (s : string) : Prop :=
  numeral 1 31 s
  \/ exists c, s = String " " (String c "")
               /\ in_class (rng "1" "9") c = true.

(** The text [s] reads as the date and time [dt]. *)
Definition reads (s : string) (dt : datetime) : Prop :=
  exists yy mm dd hh mi ss t z,
    s = yy +++ "-" +++ mm +++ "-" +++ dd +++ String t
          (hh +++ ":" +++ mi +++ ":" +++ ss +++ String z "")
    /\ (t = "T" \/ t = "t")%char
    /\ (z = "Z" \/ z = "z")%char
    /\ String.length yy = 4%nat /\ all_digits yy = true /\ 1 <= int_of yy
    /\ numeral 1 12 mm
    /\ day_numeral dd
    /\ int_of dd <= days_in_month (int_of yy) (int_of mm)
    /\ numeral 0 23 hh
    /\ numeral 0 59 mi
    /\ numeral 0 59 ss
    /\ dt = mkdatetime (int_of yy) (int_of mm) (int_of dd)
                       (int_of hh) (int_of mi) (int_of ss).


Close Scope Z_scope.

End Strptime.

(** ** Data model *)

(** The metadata that the service attaches to a file of a gist; the program
    never looks inside. *)
Inductive FileMeta := mkFileMeta (raw : string).

(** A gist record as decoded from the JSON of the service.  [files] keeps the
    insertion order of the JSON object, which [dict.keys()] follows. *)
Record Gist := mkGist {
  gist_id : string;
  created_at : string;
  files : list (string * FileMeta);
  description : option string
}.

Record Headers := mkHeaders {
  Authorization : string;
  Accept : string
}.

(** The fields of a [GistDeleter] object. *)
Record GistDeleter := mkGistDeleter {
  token : string;
  headers : Headers;
  base_url : string
}.

(** ** The outside world *)

Inductive Exn :=
| ValueError
| EOFError
| RequestException (msg : string).

(** [str(e)].  Only the text of a [RequestException] is ever printed. *)
Definition str_of_exn (e : Exn) : string :=
  match e with
  | ValueError => "time data does not match format"
  | EOFError => "EOF when reading a line"
  | RequestException msg => msg
  end.

Inductive GetOutcome :=
| GetResponse (status_code : Z) (json : list Gist)
| GetRaises (msg : string).

Inductive DeleteOutcome :=
| DeleteResponse (status_code : Z)
| DeleteRaises (msg : string).

(** What the world answers.  [http_get] is asked by page number (the program
    asks for each page at most once); [http_delete] by the number of delete
    calls made before and the URL; [stdin] is the line that [input] reads,
    [None] at end of file. *)
Record Env := mkEnv {
  getenv : string -> option string;
  http_get : nat -> GetOutcome;
  http_delete : nat -> string -> DeleteOutcome;
  stdin : option string
}.

(** What the program does to the world, in the order it does it. *)
Inductive Event :=
| EvPrint (text : string)
| EvProgressEnter
| EvProgressExit
| EvAddTask (task_description : string) (total : option nat)
| EvUpdate (advance : nat) (task_description : option string)
| EvGet (url : string) (h : Headers) (page per_page : nat)
| EvDelete (url : string) (h : Headers)
| EvSleep (seconds : Q)
| EvInput (prompt : string).

Definition Trace : Type := list Event.

(** How a computation ends: with a value, by [sys.exit(code)], with an
    exception nobody caught, or still inside [while True] when the fuel of
    the model ran out. *)
Inductive Result (A : Type) :=
| Ok (a : A)
| Exit (code : Z)
| Raise (e : Exn)
| OutOfFuel.

Arguments Ok {A} a.
Arguments Exit {A} code.
Arguments Raise {A} e.
Arguments OutOfFuel {A}.

(** ** The monad of the program: the events emitted and the result *)

Definition M (A : Type) : Type := (Trace * Result A)%type.

Definition ret {A} (a : A) : M A := ([], Ok a).

Definition bind {A B} (m : M A) (k : A -> M B) : M B :=
  match m with
  | (t, Ok a) => let (t', r) := k a in (t ++ t', r)
  | (t, Exit c) => (t, Exit c)
  | (t, Raise e) => (t, Raise e)
  | (t, OutOfFuel) => (t, OutOfFuel)
  end.

Notation "x <- m ;; k" := (bind m (fun x => k))
  (at level 61, m at next level, right associativity).
Notation "m ;;; k" := (bind m (fun _ => k))
  (at level 61, right associativity).

Definition emit (e : Event) : M unit := ([e], Ok tt).
Definition sys_exit {A} (code : Z) : M A := ([], Exit code).
Definition raise {A} (e : Exn) : M A := ([], Raise e).
Definition lift {A} (r : Result A) : M A := ([], r).

(** [try: body except Exception as e: handler(e)].  [SystemExit] is not an
    [Exception] and passes through. *)
Definition try_except {A} (body : M A) (handler : Exn -> M A) : M A :=
  match body with
  | (t, Raise e) => let (t', r) := handler e in (t ++ t', r)
  | other => other
  end.

(** [with Progress(...) as progress: body]: the display is stopped on every
    way out of the block. *)
Definition with_progress {A} (body : M A) : M A :=
  match body with
  | (t, OutOfFuel) => (EvProgressEnter :: t, OutOfFuel)
  | (t, r) => (EvProgressEnter :: t ++ [EvProgressExit], r)
  end.

(** [for x in xs: body(x)] *)
Fixpoint for_each {A} (body : A -> M unit) (xs : list A) : M unit :=
  match xs with
  | [] => ret tt
  | x :: xs' => body x ;;; for_each body xs'
  end.

(** [for i, x in enumerate(xs, start): body(i, x)] *)
Fixpoint for_enumerate {A} (body : nat -> A -> M unit) (start : nat)
  (xs : list A) : M unit :=
  match xs with
  | [] => ret tt
  | x :: xs' => body start x ;;; for_enumerate body (S start) xs'
  end.

Definition console_print (text : string) : M unit := emit (EvPrint text).
Definition time_sleep (seconds : Q) : M unit := emit (EvSleep seconds).
Definition progress_add_task (d : string) (total : option nat) : M unit :=
  emit (EvAddTask d total).
Definition progress_update (advance : nat) (d : option string) : M unit :=
  emit (EvUpdate advance d).

(** ** What the trace shows *)

Definition printed (t : Trace) : list string :=
  flat_map (fun e => match e with EvPrint s => [s] | _ => [] end) t.

Definition delete_requests (t : Trace) : list string :=
  flat_map (fun e => match e with EvDelete u _ => [u] | _ => [] end) t.

Definition get_requests (t : Trace) : list nat :=
  flat_map (fun e => match e with EvGet _ _ p _ => [p] | _ => [] end) t.

Definition sleeps (t : Trace) : list Q :=
  flat_map (fun e => match e with EvSleep d => [d] | _ => [] end) t.

Definition prompts (t : Trace) : list string :=
  flat_map (fun e => match e with EvInput p => [p] | _ => [] end) t.

Definition is_network (e : Event) : bool :=
  match e with
  | EvGet _ _ _ _ | EvDelete _ _ => true
  | _ => false
  end.

(** ** The program *)

Section Program.

Variable env : Env.

Definition requests_get (url : string) (h : Headers) (page per_page : nat)
  : M (Z * list Gist) :=
  emit (EvGet url h page per_page) ;;;
  match http_get env page with
  | GetResponse code body => ret (code, body)
  | GetRaises msg => raise (RequestException msg)
  end.

Definition requests_delete (nth_call : nat) (url : string) (h : Headers)
  : M Z :=
  emit (EvDelete url h) ;;;
  match http_delete env nth_call url with
  | DeleteResponse code => ret code
  | DeleteRaises msg => raise (RequestException msg)
  end.

Definition input (prompt : string) : M string :=
  emit (EvInput prompt) ;;;
  match stdin env with
  | Some line => ret line
  | None => raise EOFError
  end.

(** [_get_github_token] *)
Definition _get_github_token : M string :=
  match getenv env ENV_TOKEN_NAME with
  | Some token =>
      if str_truthy token then ret token
      else console_print MSG_TOKEN_NOT_FOUND ;;;
           console_print MSG_TOKEN_SETUP_GUIDE ;;;
           sys_exit 1
  | None =>
      console_print MSG_TOKEN_NOT_FOUND ;;;
      console_print MSG_TOKEN_SETUP_GUIDE ;;;
      sys_exit 1
  end.

(** [__init__] *)
Definition GistDeleter_init : M GistDeleter :=
  tok <- _get_github_token ;;
  ret {| token := tok;
         headers := {| Authorization := "token " +++ tok;
                       Accept := GITHUB_API_VERSION |};
         base_url := GITHUB_API_BASE_URL |}.

Variable self : GistDeleter.

(** The body of [while True] in [get_all_gists], from the request for
    [page] on, with [all_gists] collected so far. *)
Fixpoint get_all_gists_loop (fuel : nat) (page per_page : nat)
  (all_gists : list Gist) : M (list Gist) :=
  match fuel with
  | O => lift OutOfFuel
  | S fuel' =>
      response <- requests_get (base_url self +++ "/gists") (headers self)
                    page per_page ;;
      let (status_code, gists) := response in
      if negb (status_code =? 200)%Z then
        console_print ("[red]獲取 Gists 失敗: " +++ str_of_Z status_code
                       +++ "[/red]") ;;;
        sys_exit 1
      else
        match gists with
        | [] => ret all_gists
        | _ :: _ =>
            progress_update (length gists) None ;;;
            get_all_gists_loop fuel' (page + 1) per_page (all_gists ++ gists)
        end
  end.

Definition get_all_gists (fuel : nat) : M (list Gist) :=
  let all_gists := [] in
  let page := 1 in
  let per_page := 100 in
  with_progress
    (progress_add_task MSG_FETCHING None ;;;
     get_all_gists_loop fuel page per_page all_gists).

(** [format_gist_info]: no effect on the world; the parse of [created_at]
    comes first and its [ValueError] is not handled. *)
Definition format_gist_info (gist : Gist) : Result string :=
  match Strptime.strptime (created_at gist) with
  | None => Raise ValueError
  | Some created =>
      let files_text := join ", " (map fst (files gist)) in
      let description_text :=
        match description gist with
        | Some d => if str_truthy d then d else MSG_NO_DESCRIPTION
        | None => MSG_NO_DESCRIPTION
        end in
      Ok ("ID: " +++ gist_id gist +++ NL +++
          "  建立時間: " +++ Strptime.str_of_datetime created +++ NL +++
          "  檔案: " +++ files_text +++ NL +++
          "  描述: " +++ description_text)
  end.

(** The answer test of [_confirm_deletion]. *)
Definition is_yes (line : string) : bool :=
  String.eqb (PyStr.lower (PyStr.strip line)) "yes".

(** [_confirm_deletion] *)
Definition _confirm_deletion (count : nat) : M bool :=
  console_print (NL +++ "[yellow]警告: 您即將刪除 " +++ str_of_nat count
                 +++ " 個 Gists[/yellow]") ;;;
  console_print MSG_IRREVERSIBLE ;;;
  line <- input MSG_PROMPT ;;
  ret (is_yes line).

Definition delete_url (gist : Gist) : string :=
  base_url self +++ "/gists/" +++ gist_id gist.

Definition delete_warning (gist : Gist) : string :=
  "[yellow]警告: 刪除 Gist " +++ gist_id gist +++ " 失敗[/yellow]".

Definition delete_error (gist : Gist) (e : Exn) : string :=
  "[red]錯誤: 刪除 Gist " +++ gist_id gist +++ " 時發生異常: " +++ str_of_exn e
  +++ "[/red]".

(** One turn of the [for] loop of [delete_gists]: turn [i] makes the delete
    call number [i] of the run.  The sleep is the last statement of the
    [try] block. *)
Definition delete_one (total : nat) (i : nat) (gist : Gist) : M unit :=
  try_except
    (status_code <- requests_delete i (delete_url gist) (headers self) ;;
     (if negb (status_code =? 204)%Z
      then console_print (delete_warning gist)
      else ret tt) ;;;
     time_sleep API_SLEEP_TIME)
    (fun e => console_print (delete_error gist e)) ;;;
  progress_update 1
    (Some ("正在刪除 Gists, 當前 " +++ str_of_nat (i + 1) +++ "/"
           +++ str_of_nat total +++ "...")).

(** [delete_gists] *)
Definition delete_gists (gists : list Gist) : M unit :=
  let total := length gists in
  confirmed <- _confirm_deletion total ;;
  if negb confirmed then ret tt
  else
    with_progress
      (progress_add_task ("正在刪除 Gists，當前進度：0/" +++ str_of_nat total)
         (Some total) ;;;
       for_enumerate (delete_one total) 0 gists).

(** [run] *)
Definition run (fuel : nat) : M unit :=
  console_print MSG_START ;;;
  gists <- get_all_gists fuel ;;
  match gists with
  | [] => console_print MSG_NONE_FOUND
  | _ :: _ =>
      console_print (NL +++ "[green]找到 " +++ str_of_nat (length gists)
                     +++ " 個 Gists:[/green]") ;;;
      for_each (fun gist => text <- lift (format_gist_info gist) ;;
                            console_print text) gists ;;;
      delete_gists gists ;;;
      console_print MSG_DONE
  end.

End Program.

(** The [__main__] block: build the object, then run it. *)
Definition main (env : Env) (fuel : nat) : M unit :=
  deleter <- GistDeleter_init env ;;
  run env deleter fuel.

(** The exit status of the process. *)
Definition exit_status {A} (r : Result A) : option Z :=
  match r with
  | Ok _ => Some 0%Z
  | Exit code => Some code
  | Raise _ => Some 1%Z
  | OutOfFuel => None
  end.

(** ** Vocabulary of the specification *)

(** [enumerate(xs, start)] *)
Fixpoint enumerate {A} (start : nat) (xs : list A) : list (nat * A) :=
  match xs with
  | [] => []
  | x :: xs' => (start, x) :: enumerate (S start) xs'
  end.

(** The pages that come before the first empty page. *)
Fixpoint before_empty {A} (pages : list (list A)) : list (list A) :=
  match pages with
  | [] => []
  | [] :: _ => []
  | p :: ps => p :: before_empty ps
  end.

Section Vocabulary.

Variable env : Env.
Variable self : GistDeleter.

(** What the server does with the delete call for [g] when it is call
    number [i]. *)
Definition delete_outcome (i : nat) (g : Gist) : DeleteOutcome :=
  http_delete env i (delete_url self g).




(** Everything one turn of the loop does. *)
Definition attempt_trace (total i : nat) (g : Gist) : Trace :=
  EvDelete (delete_url self g) (headers self)
  :: match delete_outcome i g with
     | DeleteResponse code =>
         (if (code =? 204)%Z then [] else [EvPrint (delete_warning g)])
         ++ [EvSleep API_SLEEP_TIME]
     | DeleteRaises msg =>
         [EvPrint (delete_error g (RequestException msg))]
     end
  ++ [EvUpdate 1
        (Some ("正在刪除 Gists, 當前 " +++ str_of_nat (i + 1) +++ "/"
               +++ str_of_nat total +++ "..."))].

Definition loop_trace (total start : nat) (gists : list Gist) : Trace :=
  flat_map (fun p => attempt_trace total (fst p) (snd p))
           (enumerate start gists).

Definition confirm_trace (count : nat) : Trace :=
  [EvPrint (NL +++ "[yellow]警告: 您即將刪除 " +++ str_of_nat count
            +++ " 個 Gists[/yellow]");
   EvPrint MSG_IRREVERSIBLE;
   EvInput MSG_PROMPT].

(** The pages [pages] are what the server sends, with status 200, for the
    page numbers [first], [first + 1], ... *)
Fixpoint serves (first : nat) (pages : list (list Gist)) : Prop :=
  match pages with
  | [] => True
  | p :: ps => http_get env first = GetResponse 200 p /\ serves (S first) ps
  end.

Definition get_event (page per_page : nat) : Event :=
  EvGet (base_url self +++ "/gists") (headers self) page per_page.

(** What the fetch loop does while it receives the non-empty pages
    [pages], the first one for page number [first]. *)
Definition fetch_trace (per_page first : nat) (pages : list (list Gist))
  : Trace :=
  flat_map (fun p => [get_event (fst p) per_page;
                      EvUpdate (length (snd p)) None])
           (enumerate first pages).

Definition fetch_failed_line (code : Z) : string :=
  "[red]獲取 Gists 失敗: " +++ str_of_Z code +++ "[/red]".


End Vocabulary.




(** A trace of the fetch phase: no prompt, no delete request, no sleep. *)
Definition fetch_only (t : Trace) : bool :=
  forallb (fun e => match e with
                    | EvInput _ | EvDelete _ _ | EvSleep _ => false
                    | _ => true
                    end) t.

(** The answers that pass the confirmation gate, spelled out: white space,
    then [y], [e], [s] in either case, then white space. *)
Definition yes_shape (line : string) : Prop :=
  exists l y e s r,
    line = l +++ String y (String e (String s r))
    /\ PyStr.all_space l = true /\ PyStr.all_space r = true
    /\ (y = "y" \/ y = "Y")%char
    /\ (e = "e" \/ e = "E")%char
    /\ (s = "s" \/ s = "S")%char.

(** The last thing a trace shows. *)
Definition last_event (t : Trace) : option Event :=
  match rev t with
  | [] => None
  | e :: _ => Some e
  end.

(** [str.splitlines] for text whose only line break is LF. *)
Fixpoint splitlines_aux (cur : string) (s : string) : list string :=
  match s with
  | EmptyString => [cur]
  | String c s' =>
      if Ascii.eqb c (ascii_of_nat 10) then cur :: splitlines_aux "" s'
      else splitlines_aux (cur +++ String c "") s'
  end.

Definition splitlines (s : string) : list string := splitlines_aux "" s.

(** ** Sample worlds *)

Module Samples.

Definition g1 : Gist :=
  mkGist "aa11" "2024-01-15T10:30:00Z"
         [("a.txt", mkFileMeta "{}"); ("b.py", mkFileMeta "{}")] None.
Definition g2 : Gist :=
  mkGist "bb22" "2023-12-31T23:59:59Z" [("notes.md", mkFileMeta "{}")]
         (Some "").
Definition g3 : Gist :=
  mkGist "cc33" "2020-02-29T00:00:00Z" [] (Some "scratch").
Definition g_bad : Gist :=
  mkGist "dd44" "yesterday" [("x", mkFileMeta "{}")] None.

Definition self : GistDeleter :=
  {| token := "t0k";
     headers := {| Authorization := "token t0k";
                   Accept := GITHUB_API_VERSION |};
     base_url := GITHUB_API_BASE_URL |}.

(** A world given by the value of the token variable, the answers to the
    page requests 1, 2, ..., the answers to the delete calls 0, 1, ...
    and the line on standard input; the network is down once the
    scripted answers are used up. *)
Definition world (tok : option string) (pages : list GetOutcome)
  (dels : list DeleteOutcome) (line : option string) : Env :=
  {| getenv := fun name =>
                 if String.eqb name ENV_TOKEN_NAME then tok else None;
     http_get := fun page =>
                   match page with
                   | O => GetRaises "no such page"
                   | S k => nth k pages (GetRaises "connection refused")
                   end;
     http_delete := fun i _ => nth i dels (DeleteRaises "connection refused");
     stdin := line |}.

(** Three records on two pages; the second delete call times out and the
    third is refused. *)
Definition busy : Env :=
  world (Some "t0k")
        [GetResponse 200 [g1; g2]; GetResponse 200 [g3]; GetResponse 200 []]
        [DeleteResponse 204; DeleteRaises "timed out"; DeleteResponse 404]
        (Some " Yes ").

End Samples.

(** ** Vocabulary of the further properties *)

(** The steps by which the progress display was advanced. *)
Definition advances (t : Trace) : list nat :=
  flat_map (fun e => match e with EvUpdate n _ => [n] | _ => [] end) t.


(** The object that [__init__] builds from the token [tok]. *)
Definition deleter_of (tok : string) : GistDeleter :=
  {| token := tok;
     headers := {| Authorization := "token " +++ tok;
                   Accept := GITHUB_API_VERSION |};
     base_url := GITHUB_API_BASE_URL |}.

(** A network request of the object [self] is addressed as the program
    addresses it: the list endpoint with a page size of 100, or the endpoint
    of one gist, with the headers of the object. *)
Definition addressed (self : GistDeleter) (e : Event) : Prop :=
  match e with
  | EvGet url h page per_page =>
      url = base_url self +++ "/gists" /\ h = headers self
      /\ per_page = 100 /\ 1 <= page
  | EvDelete url h =>
      h = headers self /\ exists id, url = base_url self +++ "/gists/" +++ id
  | _ => True
  end.

(** A server that never runs out of gists: every page holds [g]. *)
Definition endless (g : Gist) : Env :=
  {| getenv := fun _ => Some "t0k";
     http_get := fun _ => GetResponse 200 [g];
     http_delete := fun _ _ => DeleteResponse 204;
     stdin := Some "yes" |}.
(** An event that is neither a delete request nor a sleep. *)
Definition harmless (e : Event) : Prop :=
  match e with
  | EvDelete _ _ | EvSleep _ => False
  | _ => True
  end.

(** A result that, if it is [sys.exit], is [sys.exit(1)]. *)
Definition exits_with_1 {A} (r : Result A) : Prop :=
  match r with
  | Exit code => code = 1%Z
  | _ => True
  end.
(** The text of a date and time in the form the service sends it:
    [YYYY-MM-DDTHH:MM:SSZ], every field padded with zeros. *)
Definition isoformat_Z (d : Strptime.datetime) : string :=
  Strptime.pad 4 (Strptime.year d) +++ "-" +++
  Strptime.pad 2 (Strptime.month d) +++ "-" +++
  Strptime.pad 2 (Strptime.day d) +++ "T" +++
  Strptime.pad 2 (Strptime.hour d) +++ ":" +++
  Strptime.pad 2 (Strptime.minute d) +++ ":" +++
  Strptime.pad 2 (Strptime.second d) +++ "Z".

(** A padded field is as wide as it should be, is made of digits and reads
    back as the number. *)
Definition pad_reads_back (w : nat) (n : Z) : bool :=
  (String.length (Strptime.pad w n) =? w)
  && Strptime.all_digits (Strptime.pad w n)
  && (Strptime.int_of (Strptime.pad w n) =? n)%Z.

(** * Properties *)

(** ** The model on concrete inputs *)

Example strptime_accepts :
  map Strptime.strptime ["2024-02-29T13:05:09Z"; "2024-2- 9t3:5:9z"]
  = [Some (Strptime.mkdatetime 2024 2 29 13 5 9);
     Some (Strptime.mkdatetime 2024 2 9 3 5 9)].
Proof. vm_compute. reflexivity. Qed.

Example strptime_rejects :
  map Strptime.strptime
      ["2023-02-29T13:05:09Z"; "2024-13-01T00:00:00Z"; "2024-01-01T00:00:60Z";
       "2024-01-01T00:00:00Z "; "0000-01-01T00:00:00Z"; "2024-01-01 00:00:00";
       "2024-01-01T00:00:00"; ""]
  = [None; None; None; None; None; None; None; None].
Proof. vm_compute. reflexivity. Qed.

Example str_of_datetime_pads :
  Strptime.str_of_datetime (Strptime.mkdatetime 987 2 9 3 5 0)
  = "0987-02-09 03:05:00".
Proof. vm_compute. reflexivity. Qed.

Example strip_lower :
  map (fun s => PyStr.lower (PyStr.strip s)) [" Yes "; "a B  "; "   "; ""]
  = ["yes"; "a b"; ""; ""].
Proof. vm_compute. reflexivity. Qed.

Example busy_run :
  snd (main Samples.busy 5) = Ok tt
  /\ get_requests (fst (main Samples.busy 5)) = [1; 2; 3]
  /\ delete_requests (fst (main Samples.busy 5))
     = ["https://api.github.com/gists/aa11";
        "https://api.github.com/gists/bb22";
        "https://api.github.com/gists/cc33"]
  /\ sleeps (fst (main Samples.busy 5)) = [API_SLEEP_TIME; API_SLEEP_TIME]
  /\ last_event (fst (main Samples.busy 5)) = Some (EvPrint MSG_DONE).
Proof. vm_compute. repeat split. Qed.

Example busy_run_out_of_fuel : snd (main Samples.busy 2) = OutOfFuel.
Proof. vm_compute. reflexivity. Qed.

(** ** The monad *)

Lemma bind_ok {A B} (t : Trace) (a : A) (k : A -> M B) :
  bind (t, Ok a) k = (t ++ fst (k a), snd (k a)).
Proof. unfold bind. destruct (k a); reflexivity. Qed.

Lemma bind_emit {B} (e : Event) (k : unit -> M B) :
  bind (emit e) k = (e :: fst (k tt), snd (k tt)).
Proof. unfold emit. rewrite bind_ok. reflexivity. Qed.

Lemma for_enumerate_ok {A} (body : nat -> A -> M unit)
  (tr : nat -> A -> Trace) :
  (forall i x, body i x = (tr i x, Ok tt)) ->
  forall xs start,
    for_enumerate body start xs
    = (flat_map (fun p => tr (fst p) (snd p)) (enumerate start xs), Ok tt).
Proof.
  intros Hbody xs. induction xs as [|x xs IH]; intros start; simpl.
  - reflexivity.
  - rewrite Hbody, bind_ok, IH. reflexivity.
Qed.

(** ** Projections of traces *)

Lemma printed_app t1 t2 : printed (t1 ++ t2) = printed t1 ++ printed t2.
Proof. apply flat_map_app. Qed.

Lemma delete_requests_app t1 t2 :
  delete_requests (t1 ++ t2) = delete_requests t1 ++ delete_requests t2.
Proof. apply flat_map_app. Qed.

Lemma get_requests_app t1 t2 :
  get_requests (t1 ++ t2) = get_requests t1 ++ get_requests t2.
Proof. apply flat_map_app. Qed.

Lemma sleeps_app t1 t2 : sleeps (t1 ++ t2) = sleeps t1 ++ sleeps t2.
Proof. apply flat_map_app. Qed.

Lemma prompts_app t1 t2 : prompts (t1 ++ t2) = prompts t1 ++ prompts t2.
Proof. apply flat_map_app. Qed.


(** ** Sequential deletion *)

Section Deletion.

Variable env : Env.
Variable self : GistDeleter.

Lemma delete_one_eq total i g :
  delete_one env self total i g = (attempt_trace env self total i g, Ok tt).
Proof.
  unfold delete_one, attempt_trace, delete_outcome, requests_delete.
  destruct (http_delete env i (delete_url self g)) as [code|msg]; simpl.
  - destruct (code =? 204)%Z; reflexivity.
  - reflexivity.
Qed.

Lemma delete_loop_eq total gists start :
  for_enumerate (delete_one env self total) start gists
  = (loop_trace env self total start gists, Ok tt).
Proof. apply for_enumerate_ok. intros; apply delete_one_eq. Qed.

Lemma confirm_eq count line :
  stdin env = Some line ->
  _confirm_deletion env count = (confirm_trace count, Ok (is_yes line)).
Proof.
  intros Hin. unfold _confirm_deletion, input, confirm_trace. rewrite Hin.
  reflexivity.
Qed.

Lemma confirm_eof count :
  stdin env = None ->
  _confirm_deletion env count = (confirm_trace count, Raise EOFError).
Proof.
  intros Hin. unfold _confirm_deletion, input, confirm_trace. rewrite Hin.
  reflexivity.
Qed.

Lemma delete_gists_confirmed gists line :
  stdin env = Some line -> is_yes line = true ->
  delete_gists env self gists
  = (confirm_trace (length gists)
     ++ EvProgressEnter
        :: (EvAddTask ("正在刪除 Gists，當前進度：0/"
                       +++ str_of_nat (length gists))
              (Some (length gists))
            :: loop_trace env self (length gists) 0 gists)
        ++ [EvProgressExit],
     Ok tt).
Proof.
  intros Hin Hyes. unfold delete_gists.
  rewrite (confirm_eq _ _ Hin), bind_ok, Hyes. cbn [negb].
  unfold progress_add_task. rewrite bind_emit, delete_loop_eq.
  reflexivity.
Qed.

Lemma delete_gists_declined gists line :
  stdin env = Some line -> is_yes line = false ->
  delete_gists env self gists = (confirm_trace (length gists), Ok tt).
Proof.
  intros Hin Hno. unfold delete_gists.
  rewrite (confirm_eq _ _ Hin), bind_ok, Hno. cbn [negb].
  reflexivity.
Qed.




End Deletion.









(** ** Paginated fetch *)

Section Fetch.

Variable env : Env.
Variable self : GistDeleter.

(** While the server sends non-empty pages the loop collects them and goes
    on with the next page number. *)
Lemma loop_collects per_page pages :
  Forall (fun p => p <> []) pages ->
  forall fuel page acc,
    serves env page pages ->
    get_all_gists_loop env self (length pages + fuel) page per_page acc
    = (fetch_trace self per_page page pages
       ++ fst (get_all_gists_loop env self fuel (page + length pages)
                 per_page (acc ++ concat pages)),
       snd (get_all_gists_loop env self fuel (page + length pages)
              per_page (acc ++ concat pages))).
Proof.
  induction 1 as [|p ps Hp _ IH]; intros fuel page acc Hs.
  - simpl. rewrite Nat.add_0_r, app_nil_r.
    now destruct (get_all_gists_loop env self fuel page per_page acc).
  - destruct Hs as [Hget Hs]. cbn [length Nat.add get_all_gists_loop].
    unfold requests_get. rewrite Hget.
    rewrite bind_emit. cbn [fst snd ret].
    rewrite bind_ok. cbn [fst snd Z.eqb Pos.eqb negb].
    destruct p as [|g p]; [contradiction|].
    unfold progress_update. rewrite bind_emit.
    rewrite Nat.add_1_r, (IH fuel (S page) (acc ++ g :: p) Hs).
    cbn [fst snd concat]. rewrite <- app_assoc, Nat.add_succ_r.
    reflexivity.
Qed.

(** The page after [pages] is empty: the loop returns. *)
Lemma loop_returns per_page pages fuel page acc :
  Forall (fun p => p <> []) pages ->
  serves env page (pages ++ [[]]) ->
  length pages < fuel ->
  get_all_gists_loop env self fuel page per_page acc
  = (fetch_trace self per_page page pages
     ++ [get_event self (page + length pages) per_page],
     Ok (acc ++ concat pages)).
Proof.
  intros Hne Hs Hfuel.
  replace fuel with (length pages + S (fuel - S (length pages))) by lia.
  assert (Hs' : serves env page pages
                /\ http_get env (page + length pages) = GetResponse 200 []).
  { clear Hfuel Hne. revert page Hs.
    induction pages as [|p ps IH]; intros page Hs; simpl in *.
    - rewrite Nat.add_0_r. tauto.
    - destruct Hs as [Hg Hs]. destruct (IH _ Hs) as [H1 H2].
      rewrite Nat.add_succ_r. tauto. }
  destruct Hs' as [Hpre Hlast].
  rewrite (loop_collects per_page pages Hne _ _ _ Hpre).
  cbn [get_all_gists_loop]. unfold requests_get. rewrite Hlast.
  reflexivity.
Qed.

(** The page after [pages] comes with a status other than 200: the loop
    prints the status and exits. *)
Lemma loop_exits per_page pages fuel page acc code body :
  Forall (fun p => p <> []) pages ->
  serves env page pages ->
  http_get env (page + length pages) = GetResponse code body ->
  code <> 200%Z ->
  length pages < fuel ->
  get_all_gists_loop env self fuel page per_page acc
  = (fetch_trace self per_page page pages
     ++ [get_event self (page + length pages) per_page;
         EvPrint (fetch_failed_line code)],
     Exit 1).
Proof.
  intros Hne Hpre Hlast Hcode Hfuel.
  replace fuel with (length pages + S (fuel - S (length pages))) by lia.
  rewrite (loop_collects per_page pages Hne _ _ _ Hpre).
  cbn [get_all_gists_loop]. unfold requests_get. rewrite Hlast.
  rewrite bind_emit. cbn [fst snd ret]. rewrite bind_ok.
  apply Z.eqb_neq in Hcode. cbn [fst snd]. rewrite Hcode.
  reflexivity.
Qed.

Lemma fetch_trace_get_requests per_page pages first :
  get_requests (fetch_trace self per_page first pages)
  = seq first (length pages).
Proof.
  revert first. induction pages as [|p ps IH]; intros first.
  - reflexivity.
  - unfold fetch_trace in *. simpl. now rewrite IH.
Qed.

End Fetch.

Lemma before_empty_nonempty {A} (pages : list (list A)) :
  Forall (fun p => p <> []) (before_empty pages).
Proof.
  induction pages as [|p ps IH]; [constructor|].
  destruct p as [|x p]; [constructor|].
  cbn [before_empty]. constructor; [discriminate|exact IH].
Qed.

Lemma before_empty_all {A} (pages : list (list A)) :
  Forall (fun p => p <> []) pages -> before_empty pages = pages.
Proof.
  induction 1 as [|p ps Hp _ IH]; [reflexivity|].
  destruct p as [|x p]; [contradiction|].
  cbn [before_empty]. now rewrite IH.
Qed.

Lemma before_empty_length {A} (pages : list (list A)) :
  length (before_empty pages) <= length pages.
Proof.
  induction pages as [|p ps IH]; [reflexivity|].
  destruct p as [|x p]; cbn [before_empty length]; lia.
Qed.

Lemma serves_before_empty env pages :
  forall first,
    serves env first (pages ++ [[]]) ->
    serves env first (before_empty pages ++ [[]]).
Proof.
  induction pages as [|p ps IH]; intros first Hs; [exact Hs|].
  destruct Hs as [Hget Hs]. destruct p as [|x p].
  - cbn [before_empty app serves]. auto.
  - cbn [before_empty app serves]. auto.
Qed.

(** The fetch when non-empty pages are followed by an empty one. *)
Lemma get_all_gists_returns
  (env : Env) (self : GistDeleter) (pages : list (list Gist)) (fuel : nat) :
  Forall (fun p => p <> []) pages ->
  serves env 1 (pages ++ [[]]) ->
  length pages < fuel ->
  get_all_gists env self fuel
  = (EvProgressEnter
     :: EvAddTask MSG_FETCHING None
     :: fetch_trace self 100 1 pages
     ++ [get_event self (S (length pages)) 100; EvProgressExit],
     Ok (concat pages)).
Proof.
  intros Hne Hs Hfuel. unfold get_all_gists, progress_add_task.
  rewrite bind_emit.
  rewrite (loop_returns env self 100 pages fuel 1 [] Hne Hs Hfuel).
  cbn [fst snd with_progress app Nat.add]. now rewrite <- app_assoc.
Qed.

(** C2: when the server answers the page requests with the pages [pages] and
    then an empty page (all with status 200), [get_all_gists] returns, given
    fuel for one turn per page, exactly the concatenation in server order of
    the pages that come before the first empty page, which is the
    concatenation of [pages] when they are all non-empty; the pages it asks
    for are 1, 2, ... up to the number of the first empty page and none
    after it, whatever the server would have sent there. *)
Theorem get_all_gists_concatenates_pages
  (env : Env) (self : GistDeleter) (pages : list (list Gist)) (fuel : nat) :
  serves env 1 (pages ++ [[]]) ->
  length pages < fuel ->
  snd (get_all_gists env self fuel) = Ok (concat (before_empty pages))
  /\ get_requests (fst (get_all_gists env self fuel))
     = seq 1 (S (length (before_empty pages)))
  /\ (Forall (fun p => p <> []) pages ->
      snd (get_all_gists env self fuel) = Ok (concat pages)
      /\ get_requests (fst (get_all_gists env self fuel))
         = seq 1 (S (length pages))).
Proof.
  intros Hs Hfuel.
  assert (Hgen : snd (get_all_gists env self fuel)
                 = Ok (concat (before_empty pages))
                 /\ get_requests (fst (get_all_gists env self fuel))
                    = seq 1 (S (length (before_empty pages)))).
  { pose proof (before_empty_length pages) as Hlen.
    rewrite (get_all_gists_returns env self (before_empty pages) fuel
               (before_empty_nonempty pages)
               (serves_before_empty env pages 1 Hs)) by lia.
    cbn [fst snd]. split; [reflexivity|].
    change (EvProgressEnter
            :: EvAddTask MSG_FETCHING None
            :: fetch_trace self 100 1 (before_empty pages)
            ++ [get_event self (S (length (before_empty pages))) 100;
                EvProgressExit])
      with ([EvProgressEnter; EvAddTask MSG_FETCHING None]
            ++ fetch_trace self 100 1 (before_empty pages)
            ++ [get_event self (S (length (before_empty pages))) 100;
                EvProgressExit]).
    rewrite !get_requests_app, fetch_trace_get_requests.
    cbn [get_requests flat_map get_event app].
    symmetry. apply seq_S. }
  split; [apply Hgen|]. split; [apply Hgen|].
  intros Hne. rewrite (before_empty_all pages Hne) in Hgen. exact Hgen.
Qed.

Lemma get_all_gists_concatenates_pages_witness :
  let env := Samples.world (Some "t0k")
               [GetResponse 200 [Samples.g1; Samples.g2];
                GetResponse 200 [Samples.g3];
                GetResponse 200 [];
                GetResponse 200 [Samples.g_bad]] [] None in
  snd (get_all_gists env Samples.self 3)
  = Ok [Samples.g1; Samples.g2; Samples.g3]
  /\ get_requests (fst (get_all_gists env Samples.self 3)) = [1; 2; 3].
Proof.
  intros env.
  destruct (get_all_gists_concatenates_pages env Samples.self
              [[Samples.g1; Samples.g2]; [Samples.g3]] 3) as (_ & _ & H).
  - simpl. repeat split.
  - simpl. lia.
  - apply H. repeat constructor; discriminate.
Defined.

(** ** Orchestration *)

Section Run.

Variable env : Env.
Variable self : GistDeleter.

Lemma loop_fetch_only per_page fuel :
  forall page acc,
    fetch_only (fst (get_all_gists_loop env self fuel page per_page acc))
    = true.
Proof.
  induction fuel as [|fuel IH]; intros page acc.
  - reflexivity.
  - cbn [get_all_gists_loop]. unfold requests_get.
    destruct (http_get env page) as [code body|msg].
    + rewrite bind_emit. cbn [fst snd ret]. rewrite bind_ok. cbn [fst snd].
      destruct (code =? 200)%Z; cbn [negb].
      * destruct body as [|g body]; [reflexivity|].
        unfold progress_update. rewrite bind_emit. cbn [fst app].
        cbn [fetch_only forallb andb]. apply IH.
      * reflexivity.
    + reflexivity.
Qed.

Lemma get_all_gists_fetch_only fuel :
  fetch_only (fst (get_all_gists env self fuel)) = true.
Proof.
  unfold get_all_gists, progress_add_task. rewrite bind_emit.
  pose proof (loop_fetch_only 100 fuel 1 []) as H.
  destruct (get_all_gists_loop env self fuel 1 100 []) as [t r].
  cbn [fst snd] in *.
  assert (H' : fetch_only (EvProgressEnter
                           :: (EvAddTask MSG_FETCHING None :: t)
                           ++ [EvProgressExit]) = true).
  { cbn [fetch_only forallb andb app]. unfold fetch_only in *.
    rewrite forallb_app, H. reflexivity. }
  destruct r; cbn [with_progress fst]; try exact H'.
  exact H.
Qed.

Lemma fetch_only_silent t :
  fetch_only t = true ->
  prompts t = [] /\ delete_requests t = [] /\ sleeps t = [].
Proof.
  induction t as [|e t IH]; [now repeat split|].
  cbn [fetch_only forallb]. intros H.
  apply andb_true_iff in H as [He Ht].
  destruct (IH Ht) as (Hp & Hd & Hs).
  destruct e; try discriminate; simpl; now rewrite ?Hp, ?Hd, ?Hs.
Qed.



(** [run] after a fetch that returned no record. *)
Lemma run_empty fuel t :
  get_all_gists env self fuel = (t, Ok []) ->
  run env self fuel = (EvPrint MSG_START :: t ++ [EvPrint MSG_NONE_FOUND],
                       Ok tt).
Proof.
  intros Hf. unfold run, console_print. rewrite bind_emit, Hf, bind_ok.
  reflexivity.
Qed.

(** [run] after a fetch that did not return. *)
Lemma run_fetch_exits fuel t code :
  get_all_gists env self fuel = (t, Exit code) ->
  run env self fuel = (EvPrint MSG_START :: t, Exit code).
Proof.
  intros Hf. unfold run, console_print. rewrite bind_emit, Hf.
  reflexivity.
Qed.


End Run.

(** C3: when the pages before it were fine and a page request comes back
    with a status other than 200, [get_all_gists] prints the line with the
    status code and ends the process with [sys.exit(1)]: no list, partial or
    not, is returned, [run] does nothing more, and the exit status is 1. *)
Theorem get_all_gists_fatal_status
  (env : Env) (self : GistDeleter) (pages : list (list Gist))
  (code : Z) (body : list Gist) (fuel : nat) :
  Forall (fun p => p <> []) pages ->
  serves env 1 pages ->
  http_get env (S (length pages)) = GetResponse code body ->
  code <> 200%Z ->
  length pages < fuel ->
  get_all_gists env self fuel
  = (EvProgressEnter
     :: EvAddTask MSG_FETCHING None
     :: fetch_trace self 100 1 pages
     ++ [get_event self (S (length pages)) 100;
         EvPrint ("[red]獲取 Gists 失敗: " +++ str_of_Z code +++ "[/red]");
         EvProgressExit],
     Exit 1)
  /\ (forall gists, snd (get_all_gists env self fuel) <> Ok gists)
  /\ run env self fuel
     = (EvPrint MSG_START :: fst (get_all_gists env self fuel), Exit 1)
  /\ exit_status (snd (run env self fuel)) = Some 1%Z.
Proof.
  intros Hne Hs Hlast Hcode Hfuel.
  assert (Hf : get_all_gists env self fuel
               = (EvProgressEnter
                  :: EvAddTask MSG_FETCHING None
                  :: fetch_trace self 100 1 pages
                  ++ [get_event self (S (length pages)) 100;
                      EvPrint (fetch_failed_line code);
                      EvProgressExit],
                  Exit 1)).
  { unfold get_all_gists, progress_add_task. rewrite bind_emit.
    rewrite (loop_exits env self 100 pages fuel 1 [] code body
               Hne Hs Hlast Hcode Hfuel).
    cbn [fst snd with_progress app Nat.add]. rewrite <- app_assoc.
    reflexivity. }
  split; [exact Hf|]. split; [|split].
  - intros gists. rewrite Hf. discriminate.
  - rewrite (run_fetch_exits env self fuel _ 1%Z Hf), Hf. reflexivity.
  - rewrite (run_fetch_exits env self fuel _ 1%Z Hf). reflexivity.
Qed.

Lemma get_all_gists_fatal_status_witness :
  let env := Samples.world (Some "t0k")
               [GetResponse 200 [Samples.g1; Samples.g2];
                GetResponse 403 []] [] (Some "yes") in
  printed (fst (run env Samples.self 2))
  = [MSG_START; "[red]獲取 Gists 失敗: 403[/red]"]
  /\ snd (run env Samples.self 2) = Exit 1.
Proof.
  intros env.
  destruct (get_all_gists_fatal_status env Samples.self
              [[Samples.g1; Samples.g2]] 403 [] 2) as (Hf & _ & Hr & _).
  - repeat constructor; discriminate.
  - simpl. repeat split.
  - reflexivity.
  - discriminate.
  - simpl. lia.
  - rewrite Hr, Hf. split; reflexivity.
Defined.

(** C7: when the fetch returns no record, [run] prints the notice that none
    was found and returns normally; the prompt is never shown, no delete
    request is made and nothing sleeps. *)
Theorem run_without_gists
  (env : Env) (self : GistDeleter) (fuel : nat) (t : Trace) :
  get_all_gists env self fuel = (t, Ok []) ->
  run env self fuel
  = (EvPrint MSG_START :: t ++ [EvPrint MSG_NONE_FOUND], Ok tt)
  /\ prompts (fst (run env self fuel)) = []
  /\ delete_requests (fst (run env self fuel)) = []
  /\ sleeps (fst (run env self fuel)) = [].
Proof.
  intros Hf. rewrite (run_empty env self fuel t Hf). cbn [fst].
  split; [reflexivity|].
  pose proof (get_all_gists_fetch_only env self fuel) as Ht.
  rewrite Hf in Ht. cbn [fst] in Ht.
  destruct (fetch_only_silent t Ht) as (Hp & Hd & Hs).
  change (EvPrint MSG_START :: t ++ [EvPrint MSG_NONE_FOUND])
    with ([EvPrint MSG_START] ++ t ++ [EvPrint MSG_NONE_FOUND]).
  rewrite !prompts_app, !delete_requests_app, !sleeps_app, Hp, Hd, Hs.
  repeat split.
Qed.

Lemma run_without_gists_witness :
  let env := Samples.world (Some "t0k") [GetResponse 200 []]
               [DeleteResponse 204] (Some "yes") in
  printed (fst (run env Samples.self 1)) = [MSG_START; MSG_NONE_FOUND]
  /\ snd (run env Samples.self 1) = Ok tt.
Proof.
  intros env.
  destruct (run_without_gists env Samples.self 1
              [EvProgressEnter; EvAddTask MSG_FETCHING None;
               get_event Samples.self 1 100; EvProgressExit] eq_refl)
    as (Hr & _).
  rewrite Hr. split; reflexivity.
Defined.

(** C8: when the token variable is unset or holds the empty string, the
    program prints the fixed diagnostic and the setup guide (a heading and
    one line for each of three shells) and ends with exit status 1; the
    trace holds those two prints and nothing else, so no network call was
    made. *)
Theorem main_without_token (env : Env) (fuel : nat) :
  getenv env ENV_TOKEN_NAME = None \/ getenv env ENV_TOKEN_NAME = Some "" ->
  main env fuel
  = ([EvPrint MSG_TOKEN_NOT_FOUND; EvPrint MSG_TOKEN_SETUP_GUIDE], Exit 1)
  /\ exit_status (snd (main env fuel)) = Some 1%Z
  /\ existsb is_network (fst (main env fuel)) = false
  /\ splitlines MSG_TOKEN_SETUP_GUIDE
     = ["請設置您的 GitHub Personal Access Token:";
        "Linux/macOS: export GITHUB_TOKEN='your_token'";
        "Windows PowerShell: $env:GITHUB_TOKEN='your_token'";
        "Windows CMD: set GITHUB_TOKEN=your_token"].
Proof.
  intros H.
  assert (Hm : main env fuel
               = ([EvPrint MSG_TOKEN_NOT_FOUND;
                   EvPrint MSG_TOKEN_SETUP_GUIDE], Exit 1)).
  { unfold main, GistDeleter_init, _get_github_token.
    destruct H as [H|H]; rewrite H; reflexivity. }
  rewrite Hm. repeat split.
Qed.

Lemma main_without_token_witness :
  snd (main (Samples.world (Some "") [GetResponse 200 [Samples.g1]] []
                           (Some "yes")) 5) = Exit 1
  /\ snd (main (Samples.world None [GetResponse 200 [Samples.g1]] []
                              (Some "yes")) 5) = Exit 1.
Proof.
  split.
  - destruct (main_without_token
                (Samples.world (Some "") [GetResponse 200 [Samples.g1]] []
                               (Some "yes")) 5 (or_intror eq_refl))
      as (Hm & _).
    rewrite Hm. reflexivity.
  - destruct (main_without_token
                (Samples.world None [GetResponse 200 [Samples.g1]] []
                               (Some "yes")) 5 (or_introl eq_refl))
      as (Hm & _).
    rewrite Hm. reflexivity.
Defined.

Section AfterFetch.

Variable env : Env.
Variable self : GistDeleter.



End AfterFetch.



(** ** Record formatting *)



(** ** Confirmation gate *)

Section StripLower.

Import PyStr.

Lemma append_assoc (a b c : string) : (a +++ b) +++ c = a +++ (b +++ c).
Proof. induction a as [|x a IH]; simpl; [reflexivity|now rewrite IH]. Qed.

Lemma lstrip_decompose s :
  exists l, s = l +++ lstrip s /\ all_space l = true.
Proof.
  induction s as [|c s (l & Hl & Hsp)]; simpl.
  - exists "". split; reflexivity.
  - destruct (isspace c) eqn:Hc.
    + exists (String c l). simpl. rewrite Hc, Hsp, <- Hl. split; reflexivity.
    + exists "". split; reflexivity.
Qed.

Lemma rstrip_decompose s :
  exists r, s = rstrip s +++ r /\ all_space r = true.
Proof.
  induction s as [|c s (r & Hr & Hsp)]; simpl.
  - exists "". split; reflexivity.
  - destruct (rstrip s) as [|a b] eqn:Hrs.
    + simpl in Hr. subst r. destruct (isspace c) eqn:Hc.
      * exists (String c s). simpl. rewrite Hc, Hsp. split; reflexivity.
      * exists s. split; [reflexivity|assumption].
    + exists r. simpl in *. rewrite <- Hr. split; [reflexivity|assumption].
Qed.

Lemma strip_decompose s :
  exists l r, s = l +++ strip s +++ r
              /\ all_space l = true /\ all_space r = true.
Proof.
  destruct (lstrip_decompose s) as (l & Hl & Hlsp).
  destruct (rstrip_decompose (lstrip s)) as (r & Hr & Hrsp).
  exists l, r. unfold strip. rewrite <- Hr. auto.
Qed.

Lemma lstrip_app_space l x :
  all_space l = true -> lstrip (l +++ x) = lstrip x.
Proof.
  induction l as [|c l IH]; simpl; [reflexivity|].
  intros H. apply andb_true_iff in H as [Hc Hl]. rewrite Hc. now apply IH.
Qed.

Lemma rstrip_all_space r : all_space r = true -> rstrip r = "".
Proof.
  induction r as [|c r IH]; simpl; [reflexivity|].
  intros H. apply andb_true_iff in H as [Hc Hr].
  rewrite (IH Hr), Hc. reflexivity.
Qed.

Lemma lower_char_y c :
  lower_char c = "y"%char -> c = "y"%char \/ c = "Y"%char.
Proof.
  destruct c as [[] [] [] [] [] [] [] []]; vm_compute; intros H;
    try discriminate H; auto.
Qed.

Lemma lower_char_e c :
  lower_char c = "e"%char -> c = "e"%char \/ c = "E"%char.
Proof.
  destruct c as [[] [] [] [] [] [] [] []]; vm_compute; intros H;
    try discriminate H; auto.
Qed.

Lemma lower_char_s c :
  lower_char c = "s"%char -> c = "s"%char \/ c = "S"%char.
Proof.
  destruct c as [[] [] [] [] [] [] [] []]; vm_compute; intros H;
    try discriminate H; auto.
Qed.

(** The answers that the gate accepts are exactly those of [yes_shape]. *)
Lemma is_yes_shape line : is_yes line = true <-> yes_shape line.
Proof.
  unfold is_yes. rewrite String.eqb_eq. split.
  - intros H.
    destruct (strip_decompose line) as (l & r & Hline & Hl & Hr).
    destruct (strip line) as [|y [|e [|s [|x rest]]]]; try discriminate H.
    simpl in H. injection H as Hy He Hs.
    exists l, y, e, s, r. simpl in Hline.
    repeat split; auto using lower_char_y, lower_char_e, lower_char_s.
  - intros (l & y & e & s & r & Hline & Hl & Hr & Hy & He & Hs).
    subst line. unfold strip. rewrite (lstrip_app_space _ _ Hl).
    destruct Hy, He, Hs; subst y e s;
      match goal with
      | |- context [lstrip (String ?c ?x)] =>
          change (lstrip (String c x)) with (String c x)
      end;
      cbn [rstrip]; rewrite (rstrip_all_space r Hr); reflexivity.
Qed.

End StripLower.

(** C5: with a line on standard input, [_confirm_deletion] returns a boolean
    that is true if and only if the line, stripped of surrounding white space
    and lowered, is [yes]; that is, if and only if the line is white space,
    one of the eight spellings of [yes] in upper and lower case, white
    space.  It is true for [yes], [YES] and [ yes ], false for [y], the empty
    line and [no]. *)
Theorem confirm_deletion_iff_yes (env : Env) (count : nat) (line : string) :
  stdin env = Some line ->
  exists b : bool,
    snd (_confirm_deletion env count) = Ok b
    /\ (b = true <-> PyStr.lower (PyStr.strip line) = "yes")
    /\ (b = true <-> yes_shape line)
    /\ map is_yes ["yes"; "YES"; " yes "; "y"; ""; "no"]
       = [true; true; true; false; false; false].
Proof.
  intros Hin. exists (is_yes line). rewrite (confirm_eq env count line Hin).
  split; [reflexivity|]. split; [|split].
  - unfold is_yes. apply String.eqb_eq.
  - apply is_yes_shape.
  - vm_compute. reflexivity.
Qed.

Lemma confirm_deletion_iff_yes_witness :
  snd (_confirm_deletion (Samples.world None [] [] (Some "  Yes ")) 7)
  = Ok true.
Proof.
  destruct (confirm_deletion_iff_yes (Samples.world None [] [] (Some "  Yes "))
              7 "  Yes " eq_refl) as (b & Hb & Hiff & _).
  rewrite Hb. f_equal. apply Hiff. vm_compute. reflexivity.
Defined.

(** ** The parse of [created_at] *)

Section StrptimeFacts.

Import Strptime.

Lemma in_class_bounds lo hi c :
  in_class (lo, hi) c = true ->
  nat_of_ascii lo <= nat_of_ascii c <= nat_of_ascii hi.
Proof.
  unfold in_class. cbn [fst snd]. rewrite andb_true_iff, !Nat.leb_le. tauto.
Qed.

(** Turn the class memberships among the hypotheses into bounds on the
    character codes. *)
Ltac class_bounds :=
  unfold is_digit, D09, rng, one in *;
  repeat match goal with
    | H : in_class (?lo, ?hi) _ = true |- _ =>
        apply in_class_bounds in H;
        let l := eval vm_compute in (nat_of_ascii lo) in
        let h := eval vm_compute in (nat_of_ascii hi) in
        change (nat_of_ascii lo) with l in H;
        change (nat_of_ascii hi) with h in H
    end.

Lemma is_digit_bounds c :
  is_digit c = true <-> 48 <= nat_of_ascii c <= 57.
Proof.
  unfold is_digit, D09, in_class. cbn [fst snd].
  change (nat_of_ascii "0") with 48. change (nat_of_ascii "9") with 57.
  rewrite andb_true_iff, !Nat.leb_le. tauto.
Qed.

Lemma digit_not_space c : is_digit c = true -> PyStr.isspace c = false.
Proof.
  rewrite is_digit_bounds. intros H. unfold PyStr.isspace. cbv zeta.
  repeat (apply orb_false_iff; split);
    try (apply andb_false_iff; rewrite !Nat.leb_gt; lia);
    apply Nat.eqb_neq; lia.
Qed.

Lemma lstrip_digits s : all_digits s = true -> PyStr.lstrip s = s.
Proof.
  destruct s as [|c s]; simpl; [reflexivity|].
  intros H. apply andb_true_iff in H as [Hc _].
  now rewrite (digit_not_space c Hc).
Qed.

Lemma rstrip_digits s : all_digits s = true -> PyStr.rstrip s = s.
Proof.
  induction s as [|c s IH]; simpl; [reflexivity|].
  intros H. apply andb_true_iff in H as [Hc Hs].
  rewrite (IH Hs), (digit_not_space c Hc). now destruct s.
Qed.

Lemma int_of_digits s : all_digits s = true -> int_of s = int_digits 0 s.
Proof.
  intros H. unfold int_of, PyStr.strip.
  now rewrite (lstrip_digits s H), (rstrip_digits s H).
Qed.

Lemma int_of_blank_digit c :
  in_class (rng "1" "9") c = true ->
  int_of (String " " (String c "")) = digit_val c.
Proof.
  intros H. unfold int_of, PyStr.strip.
  assert (Hd : is_digit c = true).
  { apply is_digit_bounds. class_bounds. lia. }
  change (PyStr.lstrip (String " " (String c "")))
    with (PyStr.lstrip (String c "")).
  cbn [PyStr.lstrip PyStr.rstrip]. rewrite (digit_not_space c Hd).
  cbn [PyStr.rstrip]. rewrite (digit_not_space c Hd). cbn [int_digits].
  lia.
Qed.

(** *** What a successful match says about the text *)

Lemma match_classes_nil s m rest :
  match_classes [] s = Some (m, rest) -> m = "" /\ rest = s.
Proof. cbn [match_classes]. intros H. now inversion H. Qed.

Lemma match_classes_cons k ks s m rest :
  match_classes (k :: ks) s = Some (m, rest) ->
  exists c m' s',
    s = String c s' /\ m = String c m' /\ in_class k c = true
    /\ match_classes ks s' = Some (m', rest).
Proof.
  cbn [match_classes]. destruct s as [|c s']; [discriminate|].
  destruct (in_class k c) eqn:Hk; [|discriminate].
  destruct (match_classes ks s') as [[m' r]|] eqn:Hm; [|discriminate].
  intros H. inversion H; subst. exists c, m', s'. auto.
Qed.

Lemma re_match_nil s ms r : re_match [] s = Some (ms, r) -> ms = [] /\ r = s.
Proof. cbn [re_match]. intros H. now inversion H. Qed.

Lemma re_match_lit c ps s ms r :
  re_match (Lit c :: ps) s = Some (ms, r) ->
  exists a s', s = String a s' /\ eq_nocase a c = true
               /\ re_match ps s' = Some (ms, r).
Proof.
  cbn [re_match]. destruct s as [|a s']; [discriminate|].
  destruct (eq_nocase a c) eqn:Ha; [|discriminate].
  intros H. exists a, s'. auto.
Qed.

Lemma re_match_group alts ps s ms r :
  re_match (Group alts :: ps) s = Some (ms, r) ->
  exists alt m rest ms',
    In alt alts /\ match_classes alt s = Some (m, rest)
    /\ re_match ps rest = Some (ms', r) /\ ms = m :: ms'.
Proof.
  cbn [re_match]. induction alts as [|alt more IH]; [discriminate|].
  destruct (match_classes alt s) as [[m rest]|] eqn:Hm.
  - destruct (re_match ps rest) as [[ms' r']|] eqn:Hr.
    + intros H. inversion H; subst. exists alt, m, rest, ms'.
      simpl. auto.
    + intros H. destruct (IH H) as (alt' & m' & rest' & ms' & Hin & ?).
      exists alt', m', rest', ms'. simpl. tauto.
  - intros H. destruct (IH H) as (alt' & m' & rest' & ms' & Hin & ?).
    exists alt', m', rest', ms'. simpl. tauto.
Qed.

(** Take apart the matches of the classes among the hypotheses. *)
Ltac invert_classes :=
  repeat match goal with
    | H : match_classes (_ :: _) _ = Some _ |- _ =>
        apply match_classes_cons in H;
        destruct H as (? & ? & ? & -> & -> & ? & H)
    | H : match_classes [] _ = Some _ |- _ =>
        apply match_classes_nil in H; destruct H as [-> ->]
    end.

(** A numeral of one or two characters whose codes are bounded. *)
Ltac solve_numeral :=
  class_bounds;
  repeat match goal with
    | H : _ <= nat_of_ascii ?c <= _ |- _ =>
        lazymatch goal with
        | _ : is_digit c = true |- _ => fail
        | _ => assert (is_digit c = true) by (apply is_digit_bounds; lia)
        end
    end;
  match goal with
  | |- numeral _ _ ?f =>
      assert (Hdig : all_digits f = true)
        by (cbn [all_digits];
            repeat match goal with
              | H : is_digit _ = true |- _ => rewrite H
              end; reflexivity);
      split; [cbn [String.length]; auto|];
      split; [exact Hdig|];
      rewrite (int_of_digits f Hdig); cbn [int_digits]; unfold digit_val;
      lia
  end.

(** The text that a group of the pattern matched. *)
Lemma group_text (P : string -> Prop) alts ps s ms r :
  (forall alt x m rest,
      In alt alts -> match_classes alt x = Some (m, rest) -> P m) ->
  re_match (Group alts :: ps) s = Some (ms, r) ->
  exists f rest ms',
    s = f +++ rest /\ P f /\ re_match ps rest = Some (ms', r)
    /\ ms = f :: ms'.
Proof.
  intros HP H.
  destruct (re_match_group _ _ _ _ _ H)
    as (alt & m & rest & ms' & Hin & Hm & Hr & ->).
  exists m, rest, ms'. repeat split; eauto.
  clear - Hm. revert s m rest Hm.
  induction alt as [|k ks IH]; intros s m rest Hm.
  - apply match_classes_nil in Hm as [-> ->]. reflexivity.
  - apply match_classes_cons in Hm
      as (c & m' & s' & -> & -> & _ & Hm).
    simpl. f_equal. eauto.
Qed.

Lemma re_Y_text ps s ms r :
  re_match (re_Y :: ps) s = Some (ms, r) ->
  exists f rest ms',
    s = f +++ rest
    /\ (String.length f = 4 /\ all_digits f = true)
    /\ re_match ps rest = Some (ms', r) /\ ms = f :: ms'.
Proof.
  apply group_text. intros alt x m rest Hin Hm.
  destruct Hin as [<-|[]]. invert_classes.
  unfold D09 in *. cbn [String.length all_digits]. unfold is_digit, D09.
  repeat match goal with H : in_class _ _ = true |- _ => rewrite H end.
  auto.
Qed.

Lemma re_m_text ps s ms r :
  re_match (re_m :: ps) s = Some (ms, r) ->
  exists f rest ms',
    s = f +++ rest /\ numeral 1 12 f
    /\ re_match ps rest = Some (ms', r) /\ ms = f :: ms'.
Proof.
  apply group_text. intros alt x m rest Hin Hm.
  repeat destruct Hin as [<-|Hin]; try contradiction;
    invert_classes; solve_numeral.
Qed.

Lemma re_d_text ps s ms r :
  re_match (re_d :: ps) s = Some (ms, r) ->
  exists f rest ms',
    s = f +++ rest /\ day_numeral f
    /\ re_match ps rest = Some (ms', r) /\ ms = f :: ms'.
Proof.
  apply group_text. intros alt x m rest Hin Hm.
  repeat destruct Hin as [<-|Hin]; try contradiction; invert_classes;
    try (left; solve_numeral).
  right. eexists. split; [|eassumption].
  f_equal. class_bounds.
  match goal with
  | H : 32 <= nat_of_ascii ?c <= 32 |- _ =>
      rewrite <- (ascii_nat_embedding c);
      replace (nat_of_ascii c) with 32 by lia
  end.
  reflexivity.
Qed.

Lemma re_H_text ps s ms r :
  re_match (re_H :: ps) s = Some (ms, r) ->
  exists f rest ms',
    s = f +++ rest /\ numeral 0 23 f
    /\ re_match ps rest = Some (ms', r) /\ ms = f :: ms'.
Proof.
  apply group_text. intros alt x m rest Hin Hm.
  repeat destruct Hin as [<-|Hin]; try contradiction;
    invert_classes; solve_numeral.
Qed.

Lemma re_M_text ps s ms r :
  re_match (re_M :: ps) s = Some (ms, r) ->
  exists f rest ms',
    s = f +++ rest /\ numeral 0 59 f
    /\ re_match ps rest = Some (ms', r) /\ ms = f :: ms'.
Proof.
  apply group_text. intros alt x m rest Hin Hm.
  repeat destruct Hin as [<-|Hin]; try contradiction;
    invert_classes; solve_numeral.
Qed.

Lemma re_S_text ps s ms r :
  re_match (re_S :: ps) s = Some (ms, r) ->
  exists f rest ms',
    s = f +++ rest /\ numeral 0 61 f
    /\ re_match ps rest = Some (ms', r) /\ ms = f :: ms'.
Proof.
  apply group_text. intros alt x m rest Hin Hm.
  repeat destruct Hin as [<-|Hin]; try contradiction;
    invert_classes; solve_numeral.
Qed.

(** *** The texts that the pattern matches *)

Lemma is_digit_cases c : is_digit c = true -> In c digit_chars.
Proof.
  intros H. apply is_digit_bounds in H. rewrite <- (ascii_nat_embedding c).
  assert (Hn : In (nat_of_ascii c) [48; 49; 50; 51; 52; 53; 54; 55; 56; 57])
    by (simpl; lia).
  revert Hn. generalize (nat_of_ascii c). intros n Hn.
  repeat destruct Hn as [<-|Hn]; try contradiction; vm_compute; auto 12.
Qed.

Lemma numeral_in lo hi f :
  numeral lo hi f ->
  In f (filter (fun t => (lo <=? int_of t)%Z && (int_of t <=? hi)%Z)
          all_numerals).
Proof.
  intros (Hlen & Hdig & Hlo & Hhi). apply filter_In. split.
  - unfold all_numerals. apply in_or_app.
    destruct f as [|a [|b [|c f]]]; cbn [String.length] in Hlen;
      try (exfalso; lia); cbn [all_digits] in Hdig.
    + left. apply andb_true_iff in Hdig as [Ha _].
      apply (in_map (fun x => String x "") digit_chars a).
      now apply is_digit_cases.
    + right. apply andb_true_iff in Hdig as [Ha Hb].
      apply andb_true_iff in Hb as [Hb _].
      apply in_flat_map. exists a. split; [now apply is_digit_cases|].
      apply (in_map (fun x => String a (String x "")) digit_chars b).
      now apply is_digit_cases.
  - apply andb_true_iff. split; now apply Z.leb_le.
Qed.

Lemma eq_nocase_T c : eq_nocase c "T" = true -> c = "T"%char \/ c = "t"%char.
Proof.
  destruct c as [[] [] [] [] [] [] [] []]; vm_compute; intros H;
    try discriminate H; auto.
Qed.

Lemma eq_nocase_Z c : eq_nocase c "Z" = true -> c = "Z"%char \/ c = "z"%char.
Proof.
  destruct c as [[] [] [] [] [] [] [] []]; vm_compute; intros H;
    try discriminate H; auto.
Qed.

Lemma eq_nocase_dash c : eq_nocase c "-" = true -> c = "-"%char.
Proof.
  destruct c as [[] [] [] [] [] [] [] []]; vm_compute; intros H;
    try discriminate H; auto.
Qed.

Lemma eq_nocase_colon c : eq_nocase c ":" = true -> c = ":"%char.
Proof.
  destruct c as [[] [] [] [] [] [] [] []]; vm_compute; intros H;
    try discriminate H; auto.
Qed.

(** Go through the numerals of a range one by one. *)
Ltac each_numeral H :=
  apply numeral_in in H; vm_compute in H;
  repeat destruct H as [<-|H]; try contradiction.

Lemma re_Y_matches yy ps rest :
  String.length yy = 4 -> all_digits yy = true ->
  re_match (re_Y :: Lit "-" :: ps) (yy +++ String "-" rest)
  = match re_match ps rest with
    | Some (ms, r) => Some (yy :: ms, r)
    | None => None
    end.
Proof.
  intros Hlen Hdig.
  destruct yy as [|a [|b [|c [|d [|e yy]]]]]; try discriminate Hlen.
  cbn [all_digits] in Hdig. unfold is_digit in Hdig.
  repeat (apply andb_true_iff in Hdig as [? Hdig]).
  unfold re_Y. cbn [re_match match_classes String.append].
  repeat match goal with H : in_class D09 _ = true |- _ => rewrite H end.
  change (eq_nocase "-" "-") with true. cbv iota.
  destruct (re_match ps rest) as [[ms r]|]; reflexivity.
Qed.

Lemma re_m_matches f ps rest :
  numeral 1 12 f ->
  re_match (re_m :: Lit "-" :: ps) (f +++ String "-" rest)
  = match re_match ps rest with
    | Some (ms, r) => Some (f :: ms, r)
    | None => None
    end.
Proof. intros H. each_numeral H; reflexivity. Qed.

Lemma re_d_matches f t ps rest :
  day_numeral f -> (t = "T" \/ t = "t")%char ->
  re_match (re_d :: Lit "T" :: ps) (f +++ String t rest)
  = match re_match ps rest with
    | Some (ms, r) => Some (f :: ms, r)
    | None => None
    end.
Proof.
  intros [H|(c & -> & Hc)] [-> | ->].
  - each_numeral H; reflexivity.
  - each_numeral H; reflexivity.
  - assert (Hd : is_digit c = true)
      by (apply is_digit_bounds; class_bounds; lia).
    apply is_digit_cases in Hd.
    repeat destruct Hd as [<-|Hd]; try contradiction;
      try discriminate Hc; reflexivity.
  - assert (Hd : is_digit c = true)
      by (apply is_digit_bounds; class_bounds; lia).
    apply is_digit_cases in Hd.
    repeat destruct Hd as [<-|Hd]; try contradiction;
      try discriminate Hc; reflexivity.
Qed.

Lemma re_H_matches f ps rest :
  numeral 0 23 f ->
  re_match (re_H :: Lit ":" :: ps) (f +++ String ":" rest)
  = match re_match ps rest with
    | Some (ms, r) => Some (f :: ms, r)
    | None => None
    end.
Proof. intros H. each_numeral H; reflexivity. Qed.

Lemma re_M_matches f ps rest :
  numeral 0 59 f ->
  re_match (re_M :: Lit ":" :: ps) (f +++ String ":" rest)
  = match re_match ps rest with
    | Some (ms, r) => Some (f :: ms, r)
    | None => None
    end.
Proof. intros H. each_numeral H; reflexivity. Qed.

Lemma re_S_matches f z ps rest :
  numeral 0 59 f -> (z = "Z" \/ z = "z")%char ->
  re_match (re_S :: Lit "Z" :: ps) (f +++ String z rest)
  = match re_match ps rest with
    | Some (ms, r) => Some (f :: ms, r)
    | None => None
    end.
Proof. intros H [-> | ->]; each_numeral H; reflexivity. Qed.

(** *** The parse and the format in words agree *)

Lemma valid_iff d :
  valid d = true
  <-> (1 <= year d <= 9999 /\ 1 <= month d <= 12
       /\ 1 <= day d <= days_in_month (year d) (month d)
       /\ 0 <= hour d <= 23 /\ 0 <= minute d <= 59
       /\ 0 <= second d <= 59)%Z.
Proof.
  unfold valid. rewrite !andb_true_iff, !Z.leb_le. tauto.
Qed.

Lemma year_range yy :
  String.length yy = 4 -> all_digits yy = true ->
  (0 <= int_of yy <= 9999)%Z.
Proof.
  intros Hlen Hdig. rewrite (int_of_digits yy Hdig).
  destruct yy as [|a [|b [|c [|d [|e yy]]]]]; try discriminate Hlen.
  cbn [all_digits] in Hdig.
  repeat (apply andb_true_iff in Hdig as [? Hdig]).
  repeat match goal with
    | H : is_digit _ = true |- _ => apply is_digit_bounds in H
    end.
  cbn [int_digits]. unfold digit_val. lia.
Qed.

Lemma day_numeral_range f : day_numeral f -> (1 <= int_of f <= 31)%Z.
Proof.
  intros [(_ & _ & H)|(c & -> & Hc)]; [exact H|].
  rewrite (int_of_blank_digit c Hc). class_bounds. unfold digit_val. lia.
Qed.

Lemma strptime_reads s dt : strptime s = Some dt <-> reads s dt.
Proof.
  split.
  - unfold strptime.
    destruct (re_match format_regex s) as [[ms r]|] eqn:Hm; [|discriminate].
    unfold format_regex in Hm.
    apply re_Y_text in Hm as (yy & r1 & ms1 & -> & [Hylen Hydig] & Hm & ->).
    apply re_match_lit in Hm as (c1 & r2 & -> & Hc1 & Hm).
    apply eq_nocase_dash in Hc1 as ->.
    apply re_m_text in Hm as (mm & r3 & ms2 & -> & Hmm & Hm & ->).
    apply re_match_lit in Hm as (c2 & r4 & -> & Hc2 & Hm).
    apply eq_nocase_dash in Hc2 as ->.
    apply re_d_text in Hm as (dd & r5 & ms3 & -> & Hdd & Hm & ->).
    apply re_match_lit in Hm as (t & r6 & -> & Ht & Hm).
    apply eq_nocase_T in Ht.
    apply re_H_text in Hm as (hh & r7 & ms4 & -> & Hhh & Hm & ->).
    apply re_match_lit in Hm as (c3 & r8 & -> & Hc3 & Hm).
    apply eq_nocase_colon in Hc3 as ->.
    apply re_M_text in Hm as (mi & r9 & ms5 & -> & Hmi & Hm & ->).
    apply re_match_lit in Hm as (c4 & r10 & -> & Hc4 & Hm).
    apply eq_nocase_colon in Hc4 as ->.
    apply re_S_text in Hm as (ss & r11 & ms6 & -> & Hss & Hm & ->).
    apply re_match_lit in Hm as (z & r12 & -> & Hz & Hm).
    apply eq_nocase_Z in Hz.
    apply re_match_nil in Hm as [-> ->].
    destruct r12 as [|x r12]; [|discriminate].
    destruct (valid _) eqn:Hv; [|discriminate].
    intros H. injection H as <-.
    apply valid_iff in Hv. cbn [year month day hour minute second] in Hv.
    destruct Hss as (Hsl & Hsd & _).
    exists yy, mm, dd, hh, mi, ss, t, z.
    split; [reflexivity|]. split; [exact Ht|]. split; [exact Hz|].
    split; [exact Hylen|]. split; [exact Hydig|]. split; [lia|].
    split; [exact Hmm|]. split; [exact Hdd|]. split; [lia|].
    split; [exact Hhh|]. split; [exact Hmi|]. split; [|reflexivity].
    split; [exact Hsl|]. split; [exact Hsd|lia].
  - intros (yy & mm & dd & hh & mi & ss & t & z & -> & Ht & Hz & Hylen
            & Hydig & Hy1 & Hmm & Hdd & Hdays & Hhh & Hmi & Hss & ->).
    unfold strptime, format_regex. cbn [String.append].
    rewrite (re_Y_matches yy _ _ Hylen Hydig).
    rewrite (re_m_matches mm _ _ Hmm).
    rewrite (re_d_matches dd t _ _ Hdd Ht).
    rewrite (re_H_matches hh _ _ Hhh).
    rewrite (re_M_matches mi _ _ Hmi).
    rewrite (re_S_matches ss z _ _ Hss Hz).
    cbn [re_match].
    assert (Hv : valid (mkdatetime (int_of yy) (int_of mm) (int_of dd)
                          (int_of hh) (int_of mi) (int_of ss)) = true).
    { apply valid_iff. cbn [year month day hour minute second].
      pose proof (year_range yy Hylen Hydig).
      pose proof (day_numeral_range dd Hdd).
      destruct Hmm as (_ & _ & ?), Hhh as (_ & _ & ?),
               Hmi as (_ & _ & ?), Hss as (_ & _ & ?).
      lia. }
    now rewrite Hv.
Qed.


End StrptimeFacts.

(** ** A record that does not parse *)





(** * Further properties of the program *)

(** ** Properties that hold of every trace *)

Section TraceInvariants.

Variable P : Event -> Prop.

Lemma bind_trace {A B} (m : M A) (k : A -> M B) :
  Forall P (fst m) -> (forall a, Forall P (fst (k a))) ->
  Forall P (fst (bind m k)).
Proof.
  intros Hm Hk. destruct m as [t [a|c|e|]]; cbn [bind fst] in *; try exact Hm.
  specialize (Hk a). destruct (k a) as [t' r]. cbn [fst] in *.
  apply Forall_app. split; assumption.
Qed.

Lemma emit_trace e : P e -> Forall P (fst (emit e)).
Proof. intros He. repeat constructor. exact He. Qed.

Lemma try_except_trace {A} (body : M A) (handler : Exn -> M A) :
  Forall P (fst body) -> (forall e, Forall P (fst (handler e))) ->
  Forall P (fst (try_except body handler)).
Proof.
  intros Hb Hh. destruct body as [t [a|c|e|]]; cbn [try_except fst] in *;
    try exact Hb.
  specialize (Hh e). destruct (handler e) as [t' r]. cbn [fst] in *.
  apply Forall_app. split; assumption.
Qed.

Lemma with_progress_trace {A} (body : M A) :
  P EvProgressEnter -> P EvProgressExit ->
  Forall P (fst body) -> Forall P (fst (with_progress body)).
Proof.
  intros He Hx Hb. destruct body as [t [a|c|e|]]; cbn [with_progress fst] in *;
    constructor; try assumption; apply Forall_app; split; try assumption;
    repeat constructor; assumption.
Qed.

Lemma for_each_trace {A} (body : A -> M unit) (xs : list A) :
  (forall x, Forall P (fst (body x))) -> Forall P (fst (for_each body xs)).
Proof.
  intros Hb. induction xs as [|x xs IH]; cbn [for_each].
  - constructor.
  - apply bind_trace; [apply Hb|intros _; exact IH].
Qed.

Lemma for_enumerate_trace {A} (body : nat -> A -> M unit) (xs : list A) :
  (forall i x, Forall P (fst (body i x))) ->
  forall start, Forall P (fst (for_enumerate body start xs)).
Proof.
  intros Hb. induction xs as [|x xs IH]; intros start; cbn [for_enumerate].
  - constructor.
  - apply bind_trace; [apply Hb|intros _; apply IH].
Qed.

End TraceInvariants.
(** ** Every way the fetch can go *)

Section FetchCases.

Variable env : Env.
Variable self : GistDeleter.

Lemma fetch_trace_cons per_page first p ps :
  fetch_trace self per_page first (p :: ps)
  = get_event self first per_page :: EvUpdate (length p) None
    :: fetch_trace self per_page (S first) ps.
Proof. reflexivity. Qed.

(** The loop collects some non-empty pages and then either runs out of
    fuel, or meets an empty page and returns, or meets a status other than
    200 and exits, or meets a transport error, which it lets through. *)
Lemma loop_cases per_page :
  forall fuel page acc,
  exists pages,
    Forall (fun p => p <> []) pages /\ serves env page pages
    /\ ((length pages = fuel
         /\ get_all_gists_loop env self fuel page per_page acc
            = (fetch_trace self per_page page pages, OutOfFuel))
        \/ (length pages < fuel
            /\ http_get env (page + length pages) = GetResponse 200 []
            /\ get_all_gists_loop env self fuel page per_page acc
               = (fetch_trace self per_page page pages
                  ++ [get_event self (page + length pages) per_page],
                  Ok (acc ++ concat pages)))
        \/ (length pages < fuel
            /\ exists code body,
                http_get env (page + length pages) = GetResponse code body
                /\ code <> 200%Z
                /\ get_all_gists_loop env self fuel page per_page acc
                   = (fetch_trace self per_page page pages
                      ++ [get_event self (page + length pages) per_page;
                          EvPrint (fetch_failed_line code)],
                      Exit 1))
        \/ (length pages < fuel
            /\ exists msg,
                http_get env (page + length pages) = GetRaises msg
                /\ get_all_gists_loop env self fuel page per_page acc
                   = (fetch_trace self per_page page pages
                      ++ [get_event self (page + length pages) per_page],
                      Raise (RequestException msg)))).
Proof.
  induction fuel as [|fuel IH]; intros page acc.
  - exists []. split; [constructor|]. split; [exact I|]. left. auto.
  - destruct (http_get env page) as [code body|msg] eqn:Hget.
    + destruct (Z.eq_dec code 200) as [->|Hcode].
      * destruct body as [|g body].
        -- exists []. split; [constructor|]. split; [exact I|].
           right; left. cbn [length]. rewrite Nat.add_0_r.
           split; [lia|]. split; [exact Hget|].
           cbn [get_all_gists_loop]. unfold requests_get. rewrite Hget.
           now rewrite app_nil_r.
        -- destruct (IH (S page) (acc ++ g :: body))
             as (pages & Hne & Hs & Hcases).
           exists ((g :: body) :: pages).
           split; [constructor; [discriminate|exact Hne]|].
           split; [split; assumption|].
           assert (Hstep : get_all_gists_loop env self (S fuel) page
                             per_page acc
                           = (get_event self page per_page
                              :: EvUpdate (length (g :: body)) None
                              :: fst (get_all_gists_loop env self fuel
                                        (S page) per_page
                                        (acc ++ g :: body)),
                              snd (get_all_gists_loop env self fuel
                                     (S page) per_page (acc ++ g :: body)))).
           { cbn [get_all_gists_loop]. unfold requests_get. rewrite Hget.
             rewrite bind_emit. cbn [fst snd ret]. rewrite bind_ok.
             cbn [fst snd Z.eqb Pos.eqb negb].
             unfold progress_update. rewrite bind_emit.
             rewrite Nat.add_1_r. reflexivity. }
           rewrite Hstep, fetch_trace_cons. cbn [length concat].
           rewrite !Nat.add_succ_r. rewrite <- !Nat.add_succ_l.
           destruct Hcases as [(Hl & E)|[(Hl & Hg & E)|[(Hl & c & b & Hg & Hc & E)
                                                       |(Hl & m & Hg & E)]]];
             rewrite E; cbn [fst snd].
           ++ left. split; [lia|reflexivity].
           ++ right; left. split; [lia|]. split; [exact Hg|].
              now rewrite <- app_assoc.
           ++ right; right; left. split; [lia|]. exists c, b. auto.
           ++ right; right; right. split; [lia|]. exists m. auto.
      * exists []. split; [constructor|]. split; [exact I|].
        right; right; left. cbn [length]. rewrite Nat.add_0_r.
        split; [lia|]. exists code, body. split; [exact Hget|].
        split; [exact Hcode|].
        cbn [get_all_gists_loop]. unfold requests_get. rewrite Hget.
        rewrite bind_emit. cbn [fst snd ret]. rewrite bind_ok.
        apply Z.eqb_neq in Hcode. cbn [fst snd]. rewrite Hcode. reflexivity.
    + exists []. split; [constructor|]. split; [exact I|].
      right; right; right. cbn [length]. rewrite Nat.add_0_r.
      split; [lia|]. exists msg. split; [exact Hget|].
      cbn [get_all_gists_loop]. unfold requests_get. rewrite Hget.
      reflexivity.
Qed.

Lemma serves_snoc pages :
  forall first p,
    serves env first pages ->
    http_get env (first + length pages) = GetResponse 200 p ->
    serves env first (pages ++ [p]).
Proof.
  induction pages as [|q qs IH]; intros first p Hs Hg; cbn [app serves].
  - cbn [length] in Hg. rewrite Nat.add_0_r in Hg. auto.
  - destruct Hs as [Hq Hs]. split; [exact Hq|]. apply IH; [exact Hs|].
    cbn [length] in Hg. now rewrite Nat.add_succ_r in Hg.
Qed.

(** The same for [get_all_gists], with the progress display around the
    loop. *)
Lemma get_all_gists_cases fuel :
  exists pages,
    Forall (fun p => p <> []) pages /\ serves env 1 pages
    /\ ((length pages = fuel
         /\ get_all_gists env self fuel
            = (EvProgressEnter :: EvAddTask MSG_FETCHING None
               :: fetch_trace self 100 1 pages, OutOfFuel))
        \/ (length pages < fuel
            /\ http_get env (S (length pages)) = GetResponse 200 []
            /\ get_all_gists env self fuel
               = (EvProgressEnter :: EvAddTask MSG_FETCHING None
                  :: fetch_trace self 100 1 pages
                  ++ [get_event self (S (length pages)) 100; EvProgressExit],
                  Ok (concat pages)))
        \/ (length pages < fuel
            /\ exists code body,
                http_get env (S (length pages)) = GetResponse code body
                /\ code <> 200%Z
                /\ get_all_gists env self fuel
                   = (EvProgressEnter :: EvAddTask MSG_FETCHING None
                      :: fetch_trace self 100 1 pages
                      ++ [get_event self (S (length pages)) 100;
                          EvPrint (fetch_failed_line code); EvProgressExit],
                      Exit 1))
        \/ (length pages < fuel
            /\ exists msg,
                http_get env (S (length pages)) = GetRaises msg
                /\ get_all_gists env self fuel
                   = (EvProgressEnter :: EvAddTask MSG_FETCHING None
                      :: fetch_trace self 100 1 pages
                      ++ [get_event self (S (length pages)) 100;
                          EvProgressExit],
                      Raise (RequestException msg)))).
Proof.
  destruct (loop_cases 100 fuel 1 []) as (pages & Hne & Hs & Hcases).
  exists pages. split; [exact Hne|]. split; [exact Hs|].
  unfold get_all_gists, progress_add_task. rewrite bind_emit.
  cbn [Nat.add] in Hcases.
  destruct Hcases as [(Hl & E)|[(Hl & Hg & E)|[(Hl & c & b & Hg & Hc & E)
                                              |(Hl & m & Hg & E)]]];
    rewrite E; cbn [fst snd with_progress app].
  - left. auto.
  - right; left. split; [exact Hl|]. split; [exact Hg|].
    now rewrite <- app_assoc.
  - right; right; left. split; [exact Hl|]. exists c, b.
    split; [exact Hg|]. split; [exact Hc|]. now rewrite <- app_assoc.
  - right; right; right. split; [exact Hl|]. exists m.
    split; [exact Hg|]. now rewrite <- app_assoc.
Qed.

End FetchCases.
Lemma fetch_trace_printed self per_page pages first :
  printed (fetch_trace self per_page first pages) = [].
Proof.
  revert first. induction pages as [|p ps IH]; intros first.
  - reflexivity.
  - rewrite fetch_trace_cons. cbn [printed flat_map get_event app].
    apply IH.
Qed.

(** What a returning fetch has done. *)
Lemma get_all_gists_ok_inv env self fuel t l :
  get_all_gists env self fuel = (t, Ok l) ->
  exists pages,
    Forall (fun p => p <> []) pages
    /\ serves env 1 pages
    /\ http_get env (S (length pages)) = GetResponse 200 []
    /\ length pages < fuel
    /\ l = concat pages
    /\ t = [EvProgressEnter; EvAddTask MSG_FETCHING None]
           ++ fetch_trace self 100 1 pages
           ++ [get_event self (S (length pages)) 100; EvProgressExit].
Proof.
  intros Hf.
  destruct (get_all_gists_cases env self fuel)
    as (pages & Hne & Hs & [(_ & E)|[(Hl & Hg & E)|[(_ & c & b & _ & _ & E)
                                                   |(_ & m & _ & E)]]]);
    rewrite E in Hf; try discriminate Hf.
  injection Hf as <- <-. exists pages. repeat (split; [assumption|]).
  split; reflexivity.
Qed.

Lemma get_all_gists_ok_printed env self fuel t l :
  get_all_gists env self fuel = (t, Ok l) -> printed t = [].
Proof.
  intros Hf.
  destruct (get_all_gists_ok_inv env self fuel t l Hf)
    as (pages & _ & _ & _ & _ & _ & ->).
  now rewrite !printed_app, fetch_trace_printed.
Qed.

(** X4: [get_all_gists] returns a list only in one situation: the server
    sent non-empty pages with status 200 for the page numbers 1, 2, ... and
    then an empty page.  The list is then the concatenation of those pages,
    the requests are those for the pages up to the empty one, and nothing
    was printed. *)
Theorem get_all_gists_returns_only_after_empty_page
  (env : Env) (self : GistDeleter) (fuel : nat) (t : Trace) (l : list Gist) :
  get_all_gists env self fuel = (t, Ok l) ->
  exists pages,
    Forall (fun p => p <> []) pages
    /\ serves env 1 (pages ++ [[]])
    /\ length pages < fuel
    /\ l = concat pages
    /\ get_requests t = seq 1 (S (length pages))
    /\ printed t = [].
Proof.
  intros Hf.
  destruct (get_all_gists_ok_inv env self fuel t l Hf)
    as (pages & Hne & Hs & Hg & Hl & -> & Ht).
  exists pages.
  split; [exact Hne|]. split; [now apply serves_snoc|].
  split; [exact Hl|]. split; [reflexivity|].
  split; [|exact (get_all_gists_ok_printed env self fuel t _ Hf)].
  rewrite Ht, !get_requests_app, fetch_trace_get_requests.
  cbn [get_requests flat_map get_event app]. symmetry. apply seq_S.
Qed.

Lemma get_all_gists_returns_only_after_empty_page_witness :
  exists pages,
    serves Samples.busy 1 (pages ++ [[]])
    /\ [Samples.g1; Samples.g2; Samples.g3] = concat pages.
Proof.
  destruct (get_all_gists_returns_only_after_empty_page
              Samples.busy Samples.self 3
              [EvProgressEnter; EvAddTask MSG_FETCHING None;
               get_event Samples.self 1 100; EvUpdate 2 None;
               get_event Samples.self 2 100; EvUpdate 1 None;
               get_event Samples.self 3 100; EvProgressExit]
              [Samples.g1; Samples.g2; Samples.g3] eq_refl)
    as (pages & _ & Hs & _ & Hl & _).
  exists pages. split; assumption.
Defined.

(** X5: [get_all_gists] ends the process only with status 1 and only in one
    situation: after non-empty pages with status 200, a page request came
    back with another status.  The one line printed is the line with that
    status. *)
Theorem get_all_gists_exits_only_on_bad_status
  (env : Env) (self : GistDeleter) (fuel : nat) (t : Trace) (code : Z) :
  get_all_gists env self fuel = (t, Exit code) ->
  code = 1%Z
  /\ exists pages status body,
      Forall (fun p => p <> []) pages
      /\ serves env 1 pages
      /\ http_get env (S (length pages)) = GetResponse status body
      /\ status <> 200%Z
      /\ printed t = ["[red]獲取 Gists 失敗: " +++ str_of_Z status +++ "[/red]"].
Proof.
  intros Hf.
  destruct (get_all_gists_cases env self fuel)
    as (pages & Hne & Hs & [(_ & E)|[(_ & _ & E)|[(_ & c & b & Hg & Hc & E)
                                                 |(_ & m & _ & E)]]]);
    rewrite E in Hf; try discriminate Hf.
  injection Hf as <- <-. split; [reflexivity|].
  exists pages, c, b. repeat (split; [assumption|]).
  change (EvProgressEnter :: EvAddTask MSG_FETCHING None
          :: fetch_trace self 100 1 pages
          ++ [get_event self (S (length pages)) 100;
              EvPrint (fetch_failed_line c); EvProgressExit])
    with ([EvProgressEnter; EvAddTask MSG_FETCHING None]
          ++ fetch_trace self 100 1 pages
          ++ [get_event self (S (length pages)) 100;
              EvPrint (fetch_failed_line c); EvProgressExit]).
  rewrite !printed_app, fetch_trace_printed. reflexivity.
Qed.

Lemma get_all_gists_exits_only_on_bad_status_witness :
  exists (pages : list (list Gist)) status body,
    http_get (Samples.world None [GetResponse 200 [Samples.g1];
                                  GetResponse 500 []] [] None)
             (S (length pages)) = GetResponse status body
    /\ status <> 200%Z.
Proof.
  destruct (get_all_gists_exits_only_on_bad_status
              (Samples.world None [GetResponse 200 [Samples.g1];
                                   GetResponse 500 []] [] None)
              Samples.self 4
              [EvProgressEnter; EvAddTask MSG_FETCHING None;
               get_event Samples.self 1 100; EvUpdate 1 None;
               get_event Samples.self 2 100;
               EvPrint "[red]獲取 Gists 失敗: 500[/red]"; EvProgressExit]
              1%Z eq_refl)
    as (_ & pages & status & body & _ & _ & Hg & Hc & _).
  exists pages, status, body. split; assumption.
Defined.

Section FetchErrors.

Variable env : Env.
Variable self : GistDeleter.

(** The request after [pages] fails in the transport: the loop lets the
    exception through. *)
Lemma loop_raises per_page pages fuel page acc msg :
  Forall (fun p => p <> []) pages ->
  serves env page pages ->
  http_get env (page + length pages) = GetRaises msg ->
  length pages < fuel ->
  get_all_gists_loop env self fuel page per_page acc
  = (fetch_trace self per_page page pages
     ++ [get_event self (page + length pages) per_page],
     Raise (RequestException msg)).
Proof.
  intros Hne Hpre Hlast Hfuel.
  replace fuel with (length pages + S (fuel - S (length pages))) by lia.
  rewrite (loop_collects env self per_page pages Hne _ _ _ Hpre).
  cbn [get_all_gists_loop]. unfold requests_get. rewrite Hlast.
  reflexivity.
Qed.

Lemma run_fetch_raises fuel t e :
  get_all_gists env self fuel = (t, Raise e) ->
  run env self fuel = (EvPrint MSG_START :: t, Raise e).
Proof.
  intros Hf. unfold run, console_print. rewrite bind_emit, Hf.
  reflexivity.
Qed.

Lemma run_fetch_out_of_fuel fuel t :
  get_all_gists env self fuel = (t, OutOfFuel) ->
  run env self fuel = (EvPrint MSG_START :: t, OutOfFuel).
Proof.
  intros Hf. unfold run, console_print. rewrite bind_emit, Hf.
  reflexivity.
Qed.

End FetchErrors.

(** X6: [requests.get] is called outside any [try]: when a page request
    fails in the transport after the pages before it were fine,
    [get_all_gists] stops the progress display and lets the exception
    through, and [run] ends with it, having printed only its opening line:
    no diagnostic, no prompt, no delete request, exit status 1. *)
Theorem get_all_gists_lets_transport_error_through
  (env : Env) (self : GistDeleter) (pages : list (list Gist))
  (msg : string) (fuel : nat) :
  Forall (fun p => p <> []) pages ->
  serves env 1 pages ->
  http_get env (S (length pages)) = GetRaises msg ->
  length pages < fuel ->
  get_all_gists env self fuel
  = (EvProgressEnter :: EvAddTask MSG_FETCHING None
     :: fetch_trace self 100 1 pages
     ++ [get_event self (S (length pages)) 100; EvProgressExit],
     Raise (RequestException msg))
  /\ snd (run env self fuel) = Raise (RequestException msg)
  /\ printed (fst (run env self fuel)) = [MSG_START]
  /\ prompts (fst (run env self fuel)) = []
  /\ delete_requests (fst (run env self fuel)) = []
  /\ exit_status (snd (run env self fuel)) = Some 1%Z.
Proof.
  intros Hne Hs Hlast Hfuel.
  assert (Hf : get_all_gists env self fuel
               = (EvProgressEnter :: EvAddTask MSG_FETCHING None
                  :: fetch_trace self 100 1 pages
                  ++ [get_event self (S (length pages)) 100;
                      EvProgressExit],
                  Raise (RequestException msg))).
  { unfold get_all_gists, progress_add_task. rewrite bind_emit.
    rewrite (loop_raises env self 100 pages fuel 1 [] msg
               Hne Hs Hlast Hfuel).
    cbn [fst snd with_progress app Nat.add]. now rewrite <- app_assoc. }
  split; [exact Hf|].
  rewrite (run_fetch_raises env self fuel _ _ Hf). cbn [fst snd].
  pose proof (get_all_gists_fetch_only env self fuel) as Ht.
  rewrite Hf in Ht. cbn [fst] in Ht.
  destruct (fetch_only_silent _ Ht) as (Hp & Hd & _).
  split; [reflexivity|]. split; [|split; [|split]].
  - change (printed (EvPrint MSG_START
                     :: EvProgressEnter :: EvAddTask MSG_FETCHING None
                     :: fetch_trace self 100 1 pages
                     ++ [get_event self (S (length pages)) 100;
                         EvProgressExit]))
      with (MSG_START
            :: printed (fetch_trace self 100 1 pages
                        ++ [get_event self (S (length pages)) 100;
                            EvProgressExit])).
    rewrite printed_app, fetch_trace_printed. reflexivity.
  - exact Hp.
  - exact Hd.
  - reflexivity.
Qed.

Lemma get_all_gists_lets_transport_error_through_witness :
  snd (run (Samples.world (Some "t0k") [GetResponse 200 [Samples.g1]] []
                          (Some "yes")) Samples.self 3)
  = Raise (RequestException "connection refused").
Proof.
  destruct (get_all_gists_lets_transport_error_through
              (Samples.world (Some "t0k") [GetResponse 200 [Samples.g1]] []
                             (Some "yes"))
              Samples.self [[Samples.g1]] "connection refused" 3)
    as (_ & Hr & _).
  - repeat constructor; discriminate.
  - simpl. repeat split.
  - reflexivity.
  - simpl. lia.
  - exact Hr.
Defined.

(** X7: a server that answers every page request with a non-empty page and
    status 200 keeps [get_all_gists] in its loop for ever: whatever the fuel,
    the model is still inside [while True] when the fuel is used up, and it
    has asked for the pages 1, 2, ... one per unit of fuel. *)
Theorem get_all_gists_never_returns_on_endless_pages
  (env : Env) (self : GistDeleter) :
  (forall page, 1 <= page ->
                exists g p, http_get env page = GetResponse 200 (g :: p)) ->
  forall fuel,
    snd (get_all_gists env self fuel) = OutOfFuel
    /\ get_requests (fst (get_all_gists env self fuel)) = seq 1 fuel.
Proof.
  intros Hall fuel.
  destruct (get_all_gists_cases env self fuel)
    as (pages & Hne & Hs & [(Hl & E)|[(_ & Hg & _)|[(_ & c & b & Hg & Hc & _)
                                                   |(_ & m & Hg & _)]]]).
  - rewrite E. cbn [fst snd]. split; [reflexivity|].
    change (EvProgressEnter :: EvAddTask MSG_FETCHING None
            :: fetch_trace self 100 1 pages)
      with ([EvProgressEnter; EvAddTask MSG_FETCHING None]
            ++ fetch_trace self 100 1 pages).
    rewrite get_requests_app, fetch_trace_get_requests, Hl. reflexivity.
  - destruct (Hall (S (length pages))) as (g & p & Hg'); [lia|]. congruence.
  - destruct (Hall (S (length pages))) as (g & p & Hg'); [lia|]. congruence.
  - destruct (Hall (S (length pages))) as (g & p & Hg'); [lia|]. congruence.
Qed.

Lemma get_all_gists_never_returns_on_endless_pages_witness :
  snd (get_all_gists (endless Samples.g1) Samples.self 7) = OutOfFuel
  /\ get_requests (fst (get_all_gists (endless Samples.g1) Samples.self 7))
     = [1; 2; 3; 4; 5; 6; 7].
Proof.
  apply (get_all_gists_never_returns_on_endless_pages
           (endless Samples.g1) Samples.self).
  intros page _. exists Samples.g1, []. reflexivity.
Defined.
(** X18: however the fetch goes, the pages [get_all_gists] asks for are
    1, 2, ..., k for some k: it starts at page 1, never asks for a page
    twice and never skips one; the model asks for at most one page per unit
    of fuel. *)
Theorem get_all_gists_asks_consecutive_pages
  (env : Env) (self : GistDeleter) (fuel : nat) :
  exists k,
    k <= fuel
    /\ get_requests (fst (get_all_gists env self fuel)) = seq 1 k
    /\ (snd (get_all_gists env self fuel) <> OutOfFuel -> 1 <= k).
Proof.
  assert (Hsnoc : forall pages,
             get_requests
               ([EvProgressEnter; EvAddTask MSG_FETCHING None]
                ++ fetch_trace self 100 1 pages
                ++ [get_event self (S (length pages)) 100])
             = seq 1 (S (length pages))).
  { intros pages. rewrite !get_requests_app, fetch_trace_get_requests.
    cbn [get_requests flat_map get_event app]. symmetry. apply seq_S. }
  destruct (get_all_gists_cases env self fuel)
    as (pages & _ & _ & [(Hl & E)|[(Hl & _ & E)|[(Hl & c & b & _ & _ & E)
                                                |(Hl & m & _ & E)]]]);
    rewrite E; cbn [fst snd].
  - exists (length pages). split; [lia|]. split; [|congruence].
    change (EvProgressEnter :: EvAddTask MSG_FETCHING None
            :: fetch_trace self 100 1 pages)
      with ([EvProgressEnter; EvAddTask MSG_FETCHING None]
            ++ fetch_trace self 100 1 pages).
    now rewrite get_requests_app, fetch_trace_get_requests.
  - exists (S (length pages)). split; [lia|]. split; [|lia].
    rewrite <- (Hsnoc pages).
    change (EvProgressEnter :: EvAddTask MSG_FETCHING None
            :: fetch_trace self 100 1 pages
            ++ [get_event self (S (length pages)) 100; EvProgressExit])
      with ([EvProgressEnter; EvAddTask MSG_FETCHING None]
            ++ fetch_trace self 100 1 pages
            ++ [get_event self (S (length pages)) 100] ++ [EvProgressExit]).
    rewrite !get_requests_app. cbn [get_requests flat_map app].
    now rewrite !app_nil_r.
  - exists (S (length pages)). split; [lia|]. split; [|lia].
    rewrite <- (Hsnoc pages).
    change (EvProgressEnter :: EvAddTask MSG_FETCHING None
            :: fetch_trace self 100 1 pages
            ++ [get_event self (S (length pages)) 100;
                EvPrint (fetch_failed_line c); EvProgressExit])
      with ([EvProgressEnter; EvAddTask MSG_FETCHING None]
            ++ fetch_trace self 100 1 pages
            ++ [get_event self (S (length pages)) 100]
            ++ [EvPrint (fetch_failed_line c); EvProgressExit]).
    rewrite !get_requests_app. cbn [get_requests flat_map app].
    now rewrite !app_nil_r.
  - exists (S (length pages)). split; [lia|]. split; [|lia].
    rewrite <- (Hsnoc pages).
    change (EvProgressEnter :: EvAddTask MSG_FETCHING None
            :: fetch_trace self 100 1 pages
            ++ [get_event self (S (length pages)) 100; EvProgressExit])
      with ([EvProgressEnter; EvAddTask MSG_FETCHING None]
            ++ fetch_trace self 100 1 pages
            ++ [get_event self (S (length pages)) 100] ++ [EvProgressExit]).
    rewrite !get_requests_app. cbn [get_requests flat_map app].
    now rewrite !app_nil_r.
Qed.

(** ** More fuel changes nothing *)

Section Fuel.

Variable env : Env.
Variable self : GistDeleter.

Lemma loop_fuel per_page fuel fuel' page acc :
  snd (get_all_gists_loop env self fuel page per_page acc) <> OutOfFuel ->
  fuel <= fuel' ->
  get_all_gists_loop env self fuel' page per_page acc
  = get_all_gists_loop env self fuel page per_page acc.
Proof.
  intros Hend Hle.
  destruct (loop_cases env self per_page fuel page acc)
    as (pages & Hne & Hs & [(_ & E)|[(Hl & Hg & E)|[(Hl & c & b & Hg & Hc & E)
                                                   |(Hl & m & Hg & E)]]]);
    rewrite E in *; cbn [snd] in Hend.
  - congruence.
  - apply loop_returns; [exact Hne| |lia]. now apply serves_snoc.
  - apply (loop_exits env self per_page pages fuel' page acc c b);
      [assumption..|lia].
  - apply loop_raises; [assumption..|lia].
Qed.

Lemma get_all_gists_fuel fuel fuel' :
  snd (get_all_gists env self fuel) <> OutOfFuel ->
  fuel <= fuel' ->
  get_all_gists env self fuel' = get_all_gists env self fuel.
Proof.
  intros Hend Hle. unfold get_all_gists in *.
  rewrite (loop_fuel 100 fuel fuel' 1 []); [reflexivity| |exact Hle].
  intros Hout. apply Hend. unfold progress_add_task. rewrite bind_emit.
  destruct (get_all_gists_loop env self fuel 1 100 []) as [t r].
  cbn [snd] in Hout. subst r. reflexivity.
Qed.

Lemma run_fuel fuel fuel' :
  snd (run env self fuel) <> OutOfFuel ->
  fuel <= fuel' ->
  run env self fuel' = run env self fuel.
Proof.
  intros Hend Hle. unfold run in *.
  rewrite (get_all_gists_fuel fuel fuel'); [reflexivity| |exact Hle].
  intros Hout. apply Hend. unfold console_print at 1. rewrite bind_emit.
  destruct (get_all_gists env self fuel) as [t r].
  cbn [snd] in Hout. subst r. reflexivity.
Qed.

End Fuel.

(** X8: the fuel of the model only bounds the number of turns of
    [while True]: once the program ends with some fuel (by returning, by
    [sys.exit] or by an exception), it does and ends the same with any
    larger fuel. *)
Theorem main_fuel_irrelevant (env : Env) (fuel fuel' : nat) :
  snd (main env fuel) <> OutOfFuel ->
  fuel <= fuel' ->
  main env fuel' = main env fuel.
Proof.
  intros Hend Hle. unfold main in *.
  destruct (GistDeleter_init env) as [t [d|c|e|]]; try reflexivity.
  rewrite !bind_ok in *. cbn [snd] in Hend.
  now rewrite (run_fuel env d fuel fuel' Hend Hle).
Qed.

Lemma main_fuel_irrelevant_witness :
  main Samples.busy 40 = main Samples.busy 3.
Proof.
  apply (main_fuel_irrelevant Samples.busy 3 40).
  - vm_compute. discriminate.
  - lia.
Defined.

(** ** Requests and their addresses *)

Section Addressed.

Variable env : Env.
Variable self : GistDeleter.

Lemma loop_addressed fuel :
  forall page acc,
    1 <= page ->
    Forall (addressed self)
           (fst (get_all_gists_loop env self fuel page 100 acc)).
Proof.
  induction fuel as [|fuel IH]; intros page acc Hpage;
    cbn [get_all_gists_loop].
  - constructor.
  - apply bind_trace.
    + unfold requests_get. apply bind_trace.
      * apply emit_trace. cbn. auto.
      * intros _. destruct (http_get env page); constructor.
    + intros [code body]. destruct (negb (code =? 200)%Z).
      * apply bind_trace; [apply emit_trace; exact I|intros _; constructor].
      * destruct body as [|g body]; [constructor|].
        apply bind_trace; [apply emit_trace; exact I|].
        intros _. apply IH. lia.
Qed.

Lemma get_all_gists_addressed fuel :
  Forall (addressed self) (fst (get_all_gists env self fuel)).
Proof.
  unfold get_all_gists. apply with_progress_trace; try exact I.
  apply bind_trace; [apply emit_trace; exact I|].
  intros _. apply loop_addressed. lia.
Qed.

Lemma delete_gists_addressed gists :
  Forall (addressed self) (fst (delete_gists env self gists)).
Proof.
  unfold delete_gists. apply bind_trace.
  - unfold _confirm_deletion, input.
    do 2 (apply bind_trace; [apply emit_trace; exact I|intros _]).
    apply bind_trace; [|intros line; constructor].
    apply bind_trace; [apply emit_trace; exact I|intros _].
    destruct (stdin env); constructor.
  - intros confirmed. destruct (negb confirmed); [constructor|].
    apply with_progress_trace; try exact I.
    apply bind_trace; [apply emit_trace; exact I|intros _].
    apply for_enumerate_trace. intros i g. unfold delete_one.
    apply bind_trace; [|intros _; apply emit_trace; exact I].
    apply try_except_trace.
    + apply bind_trace.
      * unfold requests_delete. apply bind_trace.
        -- apply emit_trace. cbn. split; [reflexivity|].
           exists (gist_id g). reflexivity.
        -- intros _. destruct (http_delete env i (delete_url self g));
             constructor.
      * intros code. apply bind_trace; [|intros _; apply emit_trace; exact I].
        destruct (negb (code =? 204)%Z);
          [apply emit_trace; exact I|constructor].
    + intros e. apply emit_trace. exact I.
Qed.

Lemma run_addressed fuel :
  Forall (addressed self) (fst (run env self fuel)).
Proof.
  unfold run. apply bind_trace; [apply emit_trace; exact I|intros _].
  apply bind_trace; [apply get_all_gists_addressed|].
  intros [|g gists]; [apply emit_trace; exact I|].
  apply bind_trace; [apply emit_trace; exact I|intros _].
  apply bind_trace.
  - apply for_each_trace. intros x.
    apply bind_trace; [constructor|intros text; apply emit_trace; exact I].
  - intros _. apply bind_trace; [apply delete_gists_addressed|].
    intros _. apply emit_trace. exact I.
Qed.

End Addressed.

Lemma init_with_token env tok :
  getenv env ENV_TOKEN_NAME = Some tok -> tok <> "" ->
  GistDeleter_init env = ([], Ok (deleter_of tok)).
Proof.
  intros Hget Hne. unfold GistDeleter_init, _get_github_token.
  rewrite Hget. destruct tok; [congruence|reflexivity].
Qed.

(** X1: with the token variable set to [tok], every network request of the
    program is one of two kinds, and both carry the headers
    [Authorization: token tok] and [Accept: application/vnd.github.v3+json]:
    a GET of [https://api.github.com/gists] for a page number from 1 on with
    a page size of 100, or a DELETE of [https://api.github.com/gists/] followed
    by an id. *)
Theorem main_requests_addressed (env : Env) (fuel : nat) (tok : string) :
  getenv env ENV_TOKEN_NAME = Some tok ->
  Forall (fun e =>
            match e with
            | EvGet url h page per_page =>
                url = "https://api.github.com/gists"
                /\ h = {| Authorization := "token " +++ tok;
                          Accept := "application/vnd.github.v3+json" |}
                /\ per_page = 100 /\ 1 <= page
            | EvDelete url h =>
                h = {| Authorization := "token " +++ tok;
                       Accept := "application/vnd.github.v3+json" |}
                /\ exists id, url = "https://api.github.com/gists/" +++ id
            | _ => True
            end) (fst (main env fuel)).
Proof.
  intros Hget. unfold main.
  destruct tok as [|c tok].
  - unfold GistDeleter_init, _get_github_token. rewrite Hget.
    repeat constructor.
  - rewrite (init_with_token env (String c tok) Hget) by discriminate.
    rewrite bind_ok. cbn [fst app].
    exact (run_addressed env (deleter_of (String c tok)) fuel).
Qed.

Lemma main_requests_addressed_witness :
  Forall (fun e => match e with
                   | EvGet _ h _ _ | EvDelete _ h =>
                       Authorization h = "token t0k"
                   | _ => True
                   end) (fst (main Samples.busy 5)).
Proof.
  eapply Forall_impl;
    [|exact (main_requests_addressed Samples.busy 5 "t0k" eq_refl)].
  intros [] H; try exact I; cbn in H; destruct H as (? & ?);
    try (destruct H0 as (-> & _)); subst; reflexivity.
Defined.
(** ** No deletion without a yes *)

Lemma fetch_only_harmless t : fetch_only t = true -> Forall harmless t.
Proof.
  induction t as [|e t IH]; [constructor|].
  cbn [fetch_only forallb]. intros H.
  apply andb_true_iff in H as [He Ht].
  constructor; [destruct e; try discriminate He; exact I|now apply IH].
Qed.

Lemma harmless_silent t :
  Forall harmless t -> delete_requests t = [] /\ sleeps t = [].
Proof.
  induction 1 as [|e t He _ [IHd IHs]]; [now split|].
  destruct e; try contradiction; simpl; now rewrite ?IHd, ?IHs.
Qed.

Section Unconfirmed.

Variable env : Env.
Variable self : GistDeleter.

Lemma delete_gists_eof gists :
  stdin env = None ->
  delete_gists env self gists
  = (confirm_trace (length gists), Raise EOFError).
Proof.
  intros Hin. unfold delete_gists.
  now rewrite (confirm_eof env (length gists) Hin).
Qed.

Hypothesis no_yes : forall line, stdin env = Some line -> is_yes line = false.

Lemma delete_gists_harmless gists :
  Forall harmless (fst (delete_gists env self gists)).
Proof.
  destruct (stdin env) as [line|] eqn:Hin.
  - rewrite (delete_gists_declined env self gists line Hin (no_yes line eq_refl)).
    repeat constructor.
  - rewrite (delete_gists_eof gists Hin). repeat constructor.
Qed.

Lemma run_harmless fuel : Forall harmless (fst (run env self fuel)).
Proof.
  unfold run. apply bind_trace; [apply emit_trace; exact I|intros _].
  apply bind_trace.
  { apply fetch_only_harmless, get_all_gists_fetch_only. }
  intros [|g gists]; [apply emit_trace; exact I|].
  apply bind_trace; [apply emit_trace; exact I|intros _].
  apply bind_trace.
  - apply for_each_trace. intros x.
    apply bind_trace; [constructor|intros text; apply emit_trace; exact I].
  - intros _. apply bind_trace; [apply delete_gists_harmless|].
    intros _. apply emit_trace. exact I.
Qed.

End Unconfirmed.

Lemma init_harmless env : Forall harmless (fst (GistDeleter_init env)).
Proof.
  unfold GistDeleter_init, _get_github_token.
  destruct (getenv env ENV_TOKEN_NAME) as [tok|];
    [destruct tok|]; repeat constructor.
Qed.

(** X2: the program deletes nothing and never sleeps unless a line was read
    at the prompt and that line is [yes] in some mix of upper and lower case
    between white space: a delete request or a sleep in the trace of [main]
    implies such a line on standard input, whatever the server, the
    environment and the fuel. *)
Theorem no_delete_without_yes (env : Env) (fuel : nat) :
  delete_requests (fst (main env fuel)) <> []
  \/ sleeps (fst (main env fuel)) <> [] ->
  exists line, stdin env = Some line /\ yes_shape line.
Proof.
  intros Hsome.
  destruct (stdin env) as [line|] eqn:Hin.
  - destruct (is_yes line) eqn:Hyes.
    + exists line. split; [reflexivity|now apply is_yes_shape].
    + exfalso.
      assert (Hq : Forall harmless (fst (main env fuel))).
      { unfold main. apply bind_trace; [apply init_harmless|].
        intros d. apply run_harmless. intros l Hl. congruence. }
      destruct (harmless_silent _ Hq) as [Hd Hs]. tauto.
  - exfalso.
    assert (Hq : Forall harmless (fst (main env fuel))).
    { unfold main. apply bind_trace; [apply init_harmless|].
      intros d. apply run_harmless. intros l Hl. congruence. }
    destruct (harmless_silent _ Hq) as [Hd Hs]. tauto.
Qed.

Lemma no_delete_without_yes_witness :
  exists line, stdin Samples.busy = Some line /\ yes_shape line.
Proof.
  apply (no_delete_without_yes Samples.busy 5).
  left. vm_compute. discriminate.
Defined.

(** ** Exit status *)

Section ExitStatus.

Lemma bind_exits {A B} (m : M A) (k : A -> M B) :
  exits_with_1 (snd m) -> (forall a, exits_with_1 (snd (k a))) ->
  exits_with_1 (snd (bind m k)).
Proof.
  intros Hm Hk. destruct m as [t [a|c|e|]]; cbn [bind snd] in *;
    try exact Hm; try exact I.
  specialize (Hk a). now destruct (k a).
Qed.

Lemma try_except_exits {A} (body : M A) (handler : Exn -> M A) :
  exits_with_1 (snd body) -> (forall e, exits_with_1 (snd (handler e))) ->
  exits_with_1 (snd (try_except body handler)).
Proof.
  intros Hb Hh. destruct body as [t [a|c|e|]]; cbn [try_except snd] in *;
    try exact Hb; try exact I.
  specialize (Hh e). now destruct (handler e).
Qed.

Lemma with_progress_exits {A} (body : M A) :
  exits_with_1 (snd body) -> exits_with_1 (snd (with_progress body)).
Proof. destruct body as [t [a|c|e|]]; cbn; auto. Qed.

Lemma for_each_exits {A} (body : A -> M unit) (xs : list A) :
  (forall x, exits_with_1 (snd (body x))) ->
  exits_with_1 (snd (for_each body xs)).
Proof.
  intros Hb. induction xs as [|x xs IH]; cbn [for_each]; [exact I|].
  apply bind_exits; [apply Hb|intros _; exact IH].
Qed.

Lemma for_enumerate_exits {A} (body : nat -> A -> M unit) (xs : list A) :
  (forall i x, exits_with_1 (snd (body i x))) ->
  forall start, exits_with_1 (snd (for_enumerate body start xs)).
Proof.
  intros Hb. induction xs as [|x xs IH]; intros start;
    cbn [for_enumerate]; [exact I|].
  apply bind_exits; [apply Hb|intros _; apply IH].
Qed.

Variable env : Env.

Lemma init_exits : exits_with_1 (snd (GistDeleter_init env)).
Proof.
  unfold GistDeleter_init, _get_github_token.
  destruct (getenv env ENV_TOKEN_NAME) as [tok|];
    [destruct tok|]; cbn; auto.
Qed.

Variable self : GistDeleter.

Lemma loop_exits_with_1 per_page fuel :
  forall page acc,
    exits_with_1 (snd (get_all_gists_loop env self fuel page per_page acc)).
Proof.
  induction fuel as [|fuel IH]; intros page acc; cbn [get_all_gists_loop];
    [exact I|].
  apply bind_exits.
  - unfold requests_get. apply bind_exits; [exact I|].
    intros _. destruct (http_get env page); exact I.
  - intros [code body]. destruct (negb (code =? 200)%Z).
    + apply bind_exits; [exact I|intros _; reflexivity].
    + destruct body as [|g body]; [exact I|].
      apply bind_exits; [exact I|intros _; apply IH].
Qed.

Lemma delete_gists_exits gists :
  exits_with_1 (snd (delete_gists env self gists)).
Proof.
  unfold delete_gists. apply bind_exits.
  - unfold _confirm_deletion, input.
    do 2 (apply bind_exits; [exact I|intros _]).
    apply bind_exits; [|intros line; exact I].
    apply bind_exits; [exact I|intros _]. destruct (stdin env); exact I.
  - intros confirmed. destruct (negb confirmed); [exact I|].
    apply with_progress_exits. apply bind_exits; [exact I|intros _].
    apply for_enumerate_exits. intros i g. unfold delete_one.
    apply bind_exits; [|intros _; exact I].
    apply try_except_exits; [|intros e; exact I].
    apply bind_exits.
    + unfold requests_delete. apply bind_exits; [exact I|intros _].
      destruct (http_delete env i (delete_url self g)); exact I.
    + intros code. apply bind_exits; [|intros _; exact I].
      destruct (negb (code =? 204)%Z); exact I.
Qed.

Lemma run_exits fuel : exits_with_1 (snd (run env self fuel)).
Proof.
  unfold run. apply bind_exits; [exact I|intros _].
  apply bind_exits.
  { unfold get_all_gists. apply with_progress_exits.
    apply bind_exits; [exact I|intros _]. apply loop_exits_with_1. }
  intros [|g gists]; [exact I|].
  apply bind_exits; [exact I|intros _].
  apply bind_exits.
  - apply for_each_exits. intros x. apply bind_exits; [|intros text; exact I].
    unfold lift. cbn [snd]. destruct (format_gist_info x) eqn:E; try exact I.
    unfold format_gist_info in E.
    destruct (Strptime.strptime (created_at x)); discriminate E.
  - intros _. apply bind_exits; [apply delete_gists_exits|intros _; exact I].
Qed.

End ExitStatus.

(** X14: the process ends with status 0 or 1 and no other: whatever the
    world, a run that ends (the fuel sufficing) returns normally, or leaves
    by [sys.exit(1)], or dies of an exception, which Python reports as
    status 1. *)
Theorem main_exit_status (env : Env) (fuel : nat) :
  snd (main env fuel) = OutOfFuel
  \/ (snd (main env fuel) = Ok tt
      /\ exit_status (snd (main env fuel)) = Some 0%Z)
  \/ ((snd (main env fuel) = Exit 1 \/ exists e, snd (main env fuel) = Raise e)
      /\ exit_status (snd (main env fuel)) = Some 1%Z).
Proof.
  assert (H : exits_with_1 (snd (main env fuel))).
  { unfold main. apply bind_exits; [apply init_exits|].
    intros d. apply run_exits. }
  destruct (snd (main env fuel)) as [[]|c|e|]; cbn in *.
  - right; left. auto.
  - subst c. right; right. auto.
  - right; right. split; [right; eauto|reflexivity].
  - left. reflexivity.
Qed.
(** ** The prompt *)

Lemma loop_trace_prompts env self total gists start :
  prompts (loop_trace env self total start gists) = [].
Proof.
  revert start. induction gists as [|g gists IH]; intros start.
  - reflexivity.
  - unfold loop_trace in *. simpl. rewrite prompts_app, IH.
    unfold attempt_trace.
    destruct (delete_outcome env self start g) as [code|msg]; simpl;
      [destruct (code =? 204)%Z|]; reflexivity.
Qed.

(** X10: whatever the answer and whatever the list, [delete_gists] begins by
    printing the warning with the exact number of records it was given and
    the notice that the operation cannot be undone, and then prompts; it
    prompts once, and everything else it does comes after the prompt. *)
Theorem delete_gists_prompts_first_with_count
  (env : Env) (self : GistDeleter) (gists : list Gist) :
  exists rest,
    fst (delete_gists env self gists)
    = [EvPrint (NL +++ "[yellow]警告: 您即將刪除 "
                +++ str_of_nat (length gists) +++ " 個 Gists[/yellow]");
       EvPrint "[red]此操作不可撤銷！[/red]";
       EvInput (NL +++ "輸入 'yes' 確認刪除: ")] ++ rest
    /\ prompts rest = []
    /\ (rest <> [] -> exists line, stdin env = Some line /\ is_yes line = true).
Proof.
  destruct (stdin env) as [line|] eqn:Hin.
  - destruct (is_yes line) eqn:Hyes.
    + rewrite (delete_gists_confirmed env self gists line Hin Hyes).
      eexists. split; [reflexivity|]. split; [|eauto].
      cbn [prompts flat_map app]. rewrite prompts_app, loop_trace_prompts.
      reflexivity.
    + rewrite (delete_gists_declined env self gists line Hin Hyes).
      exists []. split; [reflexivity|]. split; [reflexivity|congruence].
  - rewrite (delete_gists_eof env self gists Hin).
    exists []. split; [reflexivity|]. split; [reflexivity|congruence].
Qed.


(** ** What a confirmed deletion prints and reports *)

Section Confirmed.

Variable env : Env.
Variable self : GistDeleter.






End Confirmed.






Lemma fetch_trace_advances self per_page pages :
  forall first,
    advances (fetch_trace self per_page first pages) = map (@length Gist) pages.
Proof.
  induction pages as [|p ps IH]; intros first; [reflexivity|].
  rewrite fetch_trace_cons. cbn [advances flat_map get_event app map].
  f_equal. apply IH.
Qed.

Lemma list_sum_lengths {A} (pages : list (list A)) :
  list_sum (map (@length A) pages) = length (concat pages).
Proof.
  induction pages as [|p ps IH]; [reflexivity|].
  cbn [map list_sum fold_right concat]. rewrite length_app.
  f_equal. exact IH.
Qed.

(** X12: when [get_all_gists] returns, the progress display has been
    advanced once per non-empty page, by the number of records of the page:
    in all by exactly the number of records returned. *)
Theorem fetch_progress_counts_records
  (env : Env) (self : GistDeleter) (fuel : nat) (t : Trace) (l : list Gist) :
  get_all_gists env self fuel = (t, Ok l) ->
  list_sum (advances t) = length l
  /\ ~ In 0 (advances t).
Proof.
  intros Hf.
  destruct (get_all_gists_ok_inv env self fuel t l Hf)
    as (pages & Hne & _ & _ & _ & -> & ->).
  assert (Ha : advances ([EvProgressEnter; EvAddTask MSG_FETCHING None]
                         ++ fetch_trace self 100 1 pages
                         ++ [get_event self (S (length pages)) 100;
                             EvProgressExit])
               = map (@length Gist) pages).
  { unfold advances at 1. rewrite !flat_map_app.
    fold (advances (fetch_trace self 100 1 pages)).
    rewrite fetch_trace_advances. cbn. now rewrite app_nil_r. }
  rewrite Ha. split; [apply list_sum_lengths|].
  intros H0. apply in_map_iff in H0 as (p & Hp & Hin).
  rewrite Forall_forall in Hne. apply (Hne p Hin).
  now destruct p.
Qed.

Lemma fetch_progress_counts_records_witness :
  list_sum (advances (fst (get_all_gists Samples.busy Samples.self 3))) = 3.
Proof.
  destruct (fetch_progress_counts_records Samples.busy Samples.self 3
              (fst (get_all_gists Samples.busy Samples.self 3))
              [Samples.g1; Samples.g2; Samples.g3] eq_refl) as (Hs & _).
  exact Hs.
Defined.
(** ** A whole confirmed run *)




(** ** Timestamps in the form of the service *)

Section RoundTrip.

Import Strptime.

Lemma pad_reads_back_upto w bound :
  forallb (fun k => pad_reads_back w (Z.of_nat k)) (seq 0 (Z.to_nat bound))
  = true ->
  forall n, (0 <= n < bound)%Z -> pad_reads_back w n = true.
Proof.
  intros Hall n Hn. rewrite forallb_forall in Hall.
  rewrite <- (Z2Nat.id n) by lia. apply Hall. apply in_seq. lia.
Qed.

Lemma pad2_reads_back n : (0 <= n < 100)%Z -> pad_reads_back 2 n = true.
Proof. apply pad_reads_back_upto. vm_compute. reflexivity. Qed.

Lemma pad4_reads_back n : (0 <= n < 10000)%Z -> pad_reads_back 4 n = true.
Proof. apply pad_reads_back_upto. vm_compute. reflexivity. Qed.

Lemma pad_reads_back_spec w n :
  pad_reads_back w n = true ->
  String.length (pad w n) = w /\ all_digits (pad w n) = true
  /\ int_of (pad w n) = n.
Proof.
  unfold pad_reads_back. rewrite !andb_true_iff, Nat.eqb_eq, Z.eqb_eq. tauto.
Qed.

Lemma pad2_numeral lo hi n :
  (0 <= lo)%Z -> (hi < 100)%Z -> (lo <= n <= hi)%Z -> numeral lo hi (pad 2 n).
Proof.
  intros Hlo Hhi Hn.
  destruct (pad_reads_back_spec 2 n (pad2_reads_back n ltac:(lia)))
    as (Hlen & Hdig & Hval).
  split; [now right|]. split; [exact Hdig|]. now rewrite Hval.
Qed.

Lemma days_in_month_bound y m : (days_in_month y m <= 31)%Z.
Proof.
  unfold days_in_month.
  destruct m as [|[[[|[]|]|[[]|[]|]|]|[[|[]|]|[[]|[]|]|]|]|]; try lia;
    destruct (is_leap y); lia.
Qed.

Lemma isoformat_Z_reads d : valid d = true -> reads (isoformat_Z d) d.
Proof.
  intros Hv. apply valid_iff in Hv.
  destruct d as [y m dd h mi s]. cbn [year month day hour minute second] in Hv.
  destruct Hv as (Hy & Hm & Hd & Hh & Hmi & Hs).
  pose proof (days_in_month_bound y m) as Hdim.
  destruct (pad_reads_back_spec 4 y (pad4_reads_back y ltac:(lia)))
    as (Hylen & Hydig & Hyval).
  pose proof (pad2_numeral 1 12 m ltac:(lia) ltac:(lia) Hm) as Nm.
  pose proof (pad2_numeral 1 31 dd ltac:(lia) ltac:(lia) ltac:(lia)) as Nd.
  pose proof (pad2_numeral 0 23 h ltac:(lia) ltac:(lia) Hh) as Nh.
  pose proof (pad2_numeral 0 59 mi ltac:(lia) ltac:(lia) Hmi) as Nmi.
  pose proof (pad2_numeral 0 59 s ltac:(lia) ltac:(lia) Hs) as Ns.
  destruct (pad_reads_back_spec 2 m (pad2_reads_back m ltac:(lia)))
    as (_ & _ & Vm).
  destruct (pad_reads_back_spec 2 dd (pad2_reads_back dd ltac:(lia)))
    as (_ & _ & Vd).
  destruct (pad_reads_back_spec 2 h (pad2_reads_back h ltac:(lia)))
    as (_ & _ & Vh).
  destruct (pad_reads_back_spec 2 mi (pad2_reads_back mi ltac:(lia)))
    as (_ & _ & Vmi).
  destruct (pad_reads_back_spec 2 s (pad2_reads_back s ltac:(lia)))
    as (_ & _ & Vs).
  exists (pad 4 y), (pad 2 m), (pad 2 dd), (pad 2 h), (pad 2 mi), (pad 2 s),
    "T"%char, "Z"%char.
  split; [reflexivity|]. split; [now left|]. split; [now left|].
  split; [exact Hylen|]. split; [exact Hydig|]. split; [lia|].
  split; [exact Nm|]. split; [left; exact Nd|].
  split; [rewrite Vd, Hyval, Vm; lia|].
  split; [exact Nh|]. split; [exact Nmi|]. split; [exact Ns|].
  now rewrite Hyval, Vm, Vd, Vh, Vmi, Vs.
Qed.

End RoundTrip.

(** X15: a timestamp in the form of the service always parses, and to the
    date it was written from: for every date and time of the calendar
    (years 1 to 9999), the parse of its text [YYYY-MM-DDTHH:MM:SSZ] gives that
    date and time back, so [format_gist_info] does not raise on a record
    with such a [created_at] and shows the same fields with a blank for the
    [T] and without the [Z]. *)
Theorem strptime_round_trip (d : Strptime.datetime) :
  Strptime.valid d = true ->
  Strptime.strptime (isoformat_Z d) = Some d
  /\ (forall g, created_at g = isoformat_Z d ->
                forall text, description g = Some text -> text <> "" ->
                format_gist_info g
                = Ok ("ID: " +++ gist_id g +++ NL +++
                      "  建立時間: " +++ Strptime.str_of_datetime d +++ NL +++
                      "  檔案: " +++ join ", " (map fst (files g)) +++ NL +++
                      "  描述: " +++ text)).
Proof.
  intros Hv.
  assert (Hp : Strptime.strptime (isoformat_Z d) = Some d)
    by (apply strptime_reads, isoformat_Z_reads, Hv).
  split; [exact Hp|].
  intros g Hg text Hd Hne. unfold format_gist_info.
  rewrite Hg, Hp, Hd. destruct text; [congruence|reflexivity].
Qed.

Lemma strptime_round_trip_witness :
  Strptime.strptime "2024-02-29T23:59:59Z"
  = Some (Strptime.mkdatetime 2024 2 29 23 59 59).
Proof.
  apply (strptime_round_trip (Strptime.mkdatetime 2024 2 29 23 59 59)).
  reflexivity.
Defined.

(** X16: whatever text the parse accepts, what it returns is a date and time
    of the calendar, and the text of that date in the form of the service
    parses to the same value: the looser spellings that the parse admits
    (single digits, a blank before the day, lower case [t] and [z]) are read
    as the date whose padded text is displayed. *)
Theorem strptime_normalises (s : string) (d : Strptime.datetime) :
  Strptime.strptime s = Some d ->
  Strptime.valid d = true
  /\ Strptime.strptime (isoformat_Z d) = Some d.
Proof.
  intros Hs.
  assert (Hv : Strptime.valid d = true).
  { unfold Strptime.strptime in Hs.
    destruct (Strptime.re_match Strptime.format_regex s)
      as [[[|yy [|mm [|dd [|hh [|mi [|ss [|x ms]]]]]]] [|c r]]|];
      try discriminate Hs.
    match type of Hs with
    | (if Strptime.valid ?dt then _ else _) = _ =>
        destruct (Strptime.valid dt) eqn:Hv; [|discriminate Hs]
    end.
    injection Hs as <-. exact Hv. }
  split; [exact Hv|].
  apply strptime_reads, isoformat_Z_reads, Hv.
Qed.

Lemma strptime_normalises_witness :
  Strptime.strptime (isoformat_Z (Strptime.mkdatetime 2024 2 9 3 5 9))
  = Some (Strptime.mkdatetime 2024 2 9 3 5 9).
Proof.
  apply (strptime_normalises "2024-2- 9t3:5:9z"
           (Strptime.mkdatetime 2024 2 9 3 5 9) eq_refl).
Defined.
(** ** The answer at the prompt, up to padding and case *)

Section Answer.

Import PyStr.

Lemma rstrip_app_space s r :
  all_space r = true -> rstrip (s +++ r) = rstrip s.
Proof.
  intros Hr. induction s as [|c s IH]; cbn [String.append rstrip].
  - now apply rstrip_all_space.
  - now rewrite IH.
Qed.

Lemma lstrip_all_space r : all_space r = true -> lstrip r = "".
Proof.
  induction r as [|c r IH]; cbn [all_space lstrip]; [reflexivity|].
  intros H. apply andb_true_iff in H as [Hc Hr]. rewrite Hc. now apply IH.
Qed.

Lemma strip_app_space s r :
  all_space r = true -> strip (s +++ r) = strip s.
Proof.
  intros Hr. unfold strip.
  induction s as [|c s IH]; cbn [String.append lstrip].
  - now rewrite (lstrip_all_space r Hr).
  - destruct (isspace c); [exact IH|].
    change (String c (s +++ r)) with (String c s +++ r).
    now apply rstrip_app_space.
Qed.

Lemma strip_padding l s r :
  all_space l = true -> all_space r = true ->
  strip (l +++ s +++ r) = strip s.
Proof.
  intros Hl Hr. unfold strip at 1. rewrite (lstrip_app_space l _ Hl).
  fold (strip (s +++ r)). now apply strip_app_space.
Qed.

Lemma isspace_lower_char c : isspace (lower_char c) = isspace c.
Proof. destruct c as [[] [] [] [] [] [] [] []]; reflexivity. Qed.

Lemma lower_char_idem c : lower_char (lower_char c) = lower_char c.
Proof. destruct c as [[] [] [] [] [] [] [] []]; reflexivity. Qed.

Lemma lower_idem s : lower (lower s) = lower s.
Proof.
  induction s as [|c s IH]; cbn [lower]; [reflexivity|].
  now rewrite lower_char_idem, IH.
Qed.

Lemma lower_lstrip s : lower (lstrip s) = lstrip (lower s).
Proof.
  induction s as [|c s IH]; cbn [lower lstrip]; [reflexivity|].
  rewrite isspace_lower_char. destruct (isspace c); [exact IH|reflexivity].
Qed.

Lemma lower_rstrip s : lower (rstrip s) = rstrip (lower s).
Proof.
  induction s as [|c s IH]; cbn [lower rstrip]; [reflexivity|].
  rewrite <- IH, isspace_lower_char.
  destruct (rstrip s); cbn [lower]; [destruct (isspace c)|]; reflexivity.
Qed.

Lemma lower_strip s : lower (strip s) = strip (lower s).
Proof. unfold strip. now rewrite lower_rstrip, lower_lstrip. Qed.

End Answer.

(** X17: the gate looks at the answer only up to white space around it and
    up to the case of its letters: putting white space before and after an
    answer, or replacing it by an answer that differs only in case, never
    changes what [_confirm_deletion] returns. *)
Theorem confirm_deletion_ignores_padding_and_case
  (env env' : Env) (count count' : nat) (l s s' r : string) :
  PyStr.all_space l = true -> PyStr.all_space r = true ->
  PyStr.lower s = PyStr.lower s' ->
  stdin env = Some (l +++ s +++ r) ->
  stdin env' = Some s' ->
  snd (_confirm_deletion env count) = snd (_confirm_deletion env' count').
Proof.
  intros Hl Hr Hcase Hin Hin'.
  rewrite (confirm_eq env count _ Hin), (confirm_eq env' count' _ Hin').
  cbn [snd]. f_equal. unfold is_yes.
  rewrite (strip_padding l s r Hl Hr), !lower_strip, Hcase. reflexivity.
Qed.

Lemma confirm_deletion_ignores_padding_and_case_witness :
  snd (_confirm_deletion (Samples.world None [] [] (Some "  yEs  ")) 3)
  = snd (_confirm_deletion (Samples.world None [] [] (Some "YES")) 8).
Proof.
  apply (confirm_deletion_ignores_padding_and_case
           (Samples.world None [] [] (Some "  yEs  "))
           (Samples.world None [] [] (Some "YES")) 3 8
           "  " "yEs" "YES" "  "); reflexivity.
Defined.
